(** * Biblical AI: the prompt builder and the generate route of [server.js]

    A shallow embedding of [systemFor] and of the handler of
    [POST /api/generate], followed by the properties proved about them.

    Conventions of the embedding:
    - a JavaScript string is the sequence of bytes of its UTF-8 encoding, so
      equality and concatenation of strings are equality and concatenation of
      byte sequences;
    - a value that came out of [JSON.parse] (the request body, a vendor's
      reply) is a [jsval];
    - the handler runs in a small monad that threads the list of calls made
      to [fetch] and carries the exception of a [throw]. *)

From Stdlib Require Import String Ascii List Bool.
Import ListNotations.
Open Scope string_scope.

Set Warnings "-register-all".

(** ** JavaScript values *)

(** The values the handler can meet.  A number is kept as its canonical
    rendering, the text [Number::toString] gives for it ([0] and [-0] both
    render as ["0"]); nothing in [server.js] computes with a number. *)
Inductive jsval : Type :=
| JUndefined
| JNull
| JBool (b : bool)
| JNum (rendering : string)
| JStr (s : string)
| JArr (elems : list jsval)
| JObj (props : list (string * jsval)).

(** [v === lit] for a string literal [lit]: strict equality holds only for a
    string with the same content. *)
Definition strict_eq_lit (v : jsval) (lit : string) : bool :=
  match v with
  | JStr s => String.eqb s lit
  | _ => false
  end.

Notation "v === lit" := (strict_eq_lit v lit) (at level 70, no associativity).

(** A default in a destructuring pattern or a parameter list
    ([provider = 'chatgpt'], [mode = 'default']) replaces [undefined] only. *)
Definition with_default (v d : jsval) : jsval :=
  match v with
  | JUndefined => d
  | _ => v
  end.

(** The line feed written [\n] in a template literal. *)
Definition nl : string := String (ascii_of_nat 10) EmptyString.

(** [Array.prototype.join] on an array of strings. *)
Definition join (sep : string) (parts : list string) : string :=
  String.concat sep parts.

(** [hay.startsWith(needle)]. *)
Fixpoint startsWith (hay needle : string) {struct needle} : bool :=
  match needle, hay with
  | EmptyString, _ => true
  | String _ _, EmptyString => false
  | String a needle', String b hay' => Ascii.eqb a b && startsWith hay' needle'
  end.

(** [hay.includes(needle)]: [needle] occurs in [hay] at some offset. *)
Fixpoint includes (hay needle : string) : bool :=
  startsWith hay needle ||
  match hay with
  | EmptyString => false
  | String _ hay' => includes hay' needle
  end.

(** [needle] is a substring of [hay]. *)
Definition substring_of (needle hay : string) : Prop :=
  exists before after, hay = before ++ needle ++ after.

(** ** The prompt builder: the constants of [systemFor] *)

(** [GENERAL_GUIDELINES]: five sentences joined by one space. *)
Definition GENERAL_GUIDELINES : string :=
  join " " [
    "Default Scripture is NKJV — quote verbatim or reference.";
    "All content should be biblically accurate and align with sound Evangelical Christian doctrine, with an emphasis on Pentecostal beliefs.";
    "Illustrations must be current and relevant to a modern audience.";
    "Tone: warm, authoritative, and compassionate; 'Human‑First' — avoid mechanical, robotic, or formulaic language.";
    "All content must be Christ‑centered and bring glory to God."
  ].

(** [HUMAN_VOICE]: nine sentences joined by one space. *)
Definition HUMAN_VOICE : string :=
  join " " [
    "Write with a natural, pastoral human voice.";
    "Vary sentence length: mix short, punchy lines with longer, more reflective sentences.";
    "Use contractions (you’ll, we’re, don’t) and occasional rhetorical questions.";
    "Prefer paragraphs over bullet lists unless the structure explicitly requires lists.";
    "Avoid boilerplate phrases like 'in conclusion', 'in today’s fast-paced world', or 'this article will'.";
    "Avoid meta-language (do not say 'as an AI', 'this essay will').";
    "Include concrete, real-life details (e.g., a Tuesday commute, a grocery line, a late-night hospital visit) when illustrating.";
    "Allow mild, tasteful disfluencies for cadence (e.g., a fragment for emphasis).";
    "Keep tone warm, authentic, unpretentious; prioritize clarity over flourish."
  ].

(** [ROLE] of the [sermonCrafter] branch. *)
Definition sermonCrafter_ROLE : string :=
  "You are Pentecostal and biblically sound; your communication style is 'Human‑First'—warm, intellectually stimulating, and deeply authentic.".

(** [ASSIGNMENT] of the [sermonCrafter] branch when [mode] is [outline]. *)
Definition sermonCrafter_ASSIGNMENT : string :=
  join " " [
    "You follow a strict two‑step workflow for sermon creation.";
    "Step 1 (current): Generate a structured sermon outline that includes:";
    "• A compelling, concise introduction summary.";
    "• 3–5 distinct sermon points for the body; each point briefly states a biblical truth that will be explored.";
    "• A concise conclusion that reinforces the main message.";
    "Then STOP and wait for explicit user approval. Do NOT write the full sermon."
  ].

(** [ASSIGNMENT_FULL] of the [sermonCrafter] branch for every other [mode]. *)
Definition sermonCrafter_ASSIGNMENT_FULL : string :=
  join " " [
    "Step 2: The user has approved the outline.";
    "Generate a COMPLETE sermon that strictly follows the approved outline and this exact structure:";
    "• Introduction (~200 words): An engaging passage that introduces the topic and hooks the listener.";
    "• Body (~1700 words): For each of the 3–5 sermon points, produce a complete teaching unit:";
    "  - A thorough explanation of the designated Scripture, including its original context.";
    "  - A clear breakdown of the theological principles (sound doctrine) found in the text.";
    "  - A modern, relatable story, analogy, or anecdote that makes the point tangible and memorable.";
    "  - Clear, actionable steps for listeners to apply the biblical truth to their daily lives.";
    "• Conclusion (~200 words): A strong wrap‑up that reinforces the main message and encourages application."
  ].

(** [ROLE] of the [sermonEnhancer] branch. *)
Definition sermonEnhancer_ROLE : string :=
  "You are a seasoned Pastor, master of Homiletics, and expert Speechwriter, Pentecostal and biblically sound, with a 'Human‑First' style—warm, intellectually stimulating, and deeply authentic.".

(** [ASSIGNMENT] of the [sermonEnhancer] branch. *)
Definition sermonEnhancer_ASSIGNMENT : string :=
  join " " [
    "Perform TWO distinct tasks in a single response:";
    "1) Analyze the draft for clarity, theological flow, and emotional resonance.";
    "2) Then rewrite the sermon (~2000 words) for spoken delivery, optimizing for the ear (cadence, signposting, repetition for emphasis)."
  ].

(** [ROLE] of the [bibleStudyTool] branch. *)
Definition bibleStudyTool_ROLE : string :=
  "Act as an expert Bible study curriculum writer.".

(** [ASSIGNMENT] of the [bibleStudyTool] branch. *)
Definition bibleStudyTool_ASSIGNMENT : string :=
  join " " [
    "Create comprehensive, practical, and engaging Bible study guides for any provided topic.";
    "Emphasize practical, real-world application for today's Christian in every guide.";
    "Ensure all interpretations are biblically accurate and align with Christian doctrine.";
    "Integrate relevant illustrations or analogies to clarify and make concepts relatable.";
    "Structure every guide using EXACTLY these four sections:";
    "  • Icebreaker: Begin with a brief, relevant question or activity to open discussion.";
    "  • Discussion Questions: Provide ~8 insightful questions based on the passage/topic, EACH with a suggested answer to guide the study leader.";
    "  • Application: Provide clear, actionable steps that participants can practice this week.";
    "  • Prayer: Close with a short, heartfelt prayer aligned with the study's main message.";
    "Maintain a helpful, neutral, respectful, Christ-like tone in all responses."
  ].

(** [ROLE] of the [biblicalApplications] branch. *)
Definition biblicalApplications_ROLE : string :=
  "You are a biblically faithful teacher focused on practical discipleship.".

(** [ASSIGNMENT] of the [biblicalApplications] branch (a single literal). *)
Definition biblicalApplications_ASSIGNMENT : string :=
  "Given a passage or topic, list concrete life applications with Scripture support.".

(** The opening sentence of the last [return] of [systemFor]. *)
Definition fallback_ROLE : string :=
  "You are a helpful assistant for pastoral ministry.".

(** ** The prompt builder: [systemFor] *)

(** [function systemFor(task, mode = 'default')].  The default of [mode]
    applies when the argument is [undefined]; each string comparison is
    [===]; each template literal is a concatenation. *)
Definition systemFor (task mode : jsval) : string :=
  let mode := with_default mode (JStr "default") in
  if task === "sermonCrafter" then
    let ROLE := sermonCrafter_ROLE in
    if mode === "outline" then
      let ASSIGNMENT := sermonCrafter_ASSIGNMENT in
      ROLE ++ nl ++ ASSIGNMENT ++ nl ++ GENERAL_GUIDELINES ++ nl ++ HUMAN_VOICE
    else
      let ASSIGNMENT_FULL := sermonCrafter_ASSIGNMENT_FULL in
      ROLE ++ nl ++ ASSIGNMENT_FULL ++ nl ++ GENERAL_GUIDELINES ++ nl ++ HUMAN_VOICE
  else if task === "sermonEnhancer" then
    let ROLE := sermonEnhancer_ROLE in
    let ASSIGNMENT := sermonEnhancer_ASSIGNMENT in
    ROLE ++ nl ++ ASSIGNMENT ++ nl ++ GENERAL_GUIDELINES ++ nl ++ HUMAN_VOICE
  else if task === "bibleStudyTool" then
    let ROLE := bibleStudyTool_ROLE in
    let ASSIGNMENT := bibleStudyTool_ASSIGNMENT in
    ROLE ++ nl ++ ASSIGNMENT ++ nl ++ GENERAL_GUIDELINES ++ nl ++ HUMAN_VOICE
  else if task === "biblicalApplications" then
    let ROLE := biblicalApplications_ROLE in
    let ASSIGNMENT := biblicalApplications_ASSIGNMENT in
    ROLE ++ nl ++ ASSIGNMENT ++ nl ++ GENERAL_GUIDELINES ++ nl ++ HUMAN_VOICE
  else
    "You are a helpful assistant for pastoral ministry. "
      ++ GENERAL_GUIDELINES ++ " " ++ HUMAN_VOICE.

(** ** Truthiness, property reads and string conversion *)

(** [ToBoolean]: what [!v] and [v || w] test. *)
Definition truthy (v : jsval) : bool :=
  match v with
  | JUndefined | JNull => false
  | JBool b => b
  | JNum r => negb (String.eqb r "0" || String.eqb r "NaN")
  | JStr s => negb (String.eqb s EmptyString)
  | JArr _ | JObj _ => true
  end.

(** [v] is [null] or [undefined]: what [?.] and [??] test. *)
Definition nullish (v : jsval) : bool :=
  match v with
  | JUndefined | JNull => true
  | _ => false
  end.

(** [a ?? b]. *)
Definition coalesce (a b : jsval) : jsval :=
  if nullish a then b else a.

(** The own property [key] of an object, [undefined] when it has none.
    An object made by [JSON.parse] holds one value per key. *)
Fixpoint lookup (props : list (string * jsval)) (key : string) : jsval :=
  match props with
  | [] => JUndefined
  | (k, v) :: rest => if String.eqb k key then v else lookup rest key
  end.

(** The object has an own property [key]. *)
Fixpoint has_own (props : list (string * jsval)) (key : string) : bool :=
  match props with
  | [] => false
  | (k, _) :: rest => String.eqb k key || has_own rest key
  end.

(** What the engine words itself when it throws a [TypeError]. *)
Inductive engine_fault : Type :=
| CannotReadProperty (key : string)
| NotAFunction (callee : string)
| CannotConvertToPrimitive.

(** The [message] of a thrown error, all that [catch (e)] reads of it:
    a text fixed by the source or by the transport, or the engine's wording
    of one of its own faults. *)
Inductive message : Type :=
| Text (s : string)
| EngineText (f : engine_fault).

(** How an evaluation ends: with a value, or with a [throw]. *)
Inductive completion (A : Type) : Type :=
| Normal (a : A)
| Throw (m : message).

Arguments Normal {A} a.
Arguments Throw {A} m.

Definition bindC {A B : Type} (c : completion A) (k : A -> completion B)
  : completion B :=
  match c with
  | Normal a => k a
  | Throw m => Throw m
  end.

Notation "x <~ c ;; k" := (bindC c (fun x => k))
  (at level 61, c at next level, right associativity).

(** [v.key] for the property names the handler reads
    ([provider], [task], [input], [mode], [choices], [message], [content],
    [candidates], [parts], [text]): none of them is an array index and no
    prototype defines any of them, so only an object can hold one. *)
Definition Get (v : jsval) (key : string) : completion jsval :=
  match v with
  | JUndefined | JNull => Throw (EngineText (CannotReadProperty key))
  | JObj props => Normal (lookup props key)
  | JBool _ | JNum _ | JStr _ | JArr _ => Normal JUndefined
  end.

(** The bytes of the first character of a string: the leading byte and the
    continuation bytes (of the form 10xxxxxx) that follow it. *)
Fixpoint continuation (s : string) : string :=
  match s with
  | String c rest =>
      if Nat.leb 128 (nat_of_ascii c) && Nat.ltb (nat_of_ascii c) 192
      then String c (continuation rest) else EmptyString
  | EmptyString => EmptyString
  end.

Definition first_char (s : string) : string :=
  match s with
  | String c rest => String c (continuation rest)
  | EmptyString => EmptyString
  end.

(** [v[0]]: the first element of an array, the property ["0"] of an object,
    the first character of a non-empty string.  (For a character outside the
    basic plane the engine gives half of a surrogate pair, which has no UTF-8
    form; the handler reads [v[0]] only to read [.message] or [.content] of
    it, which every string lacks.) *)
Definition Get0 (v : jsval) : completion jsval :=
  match v with
  | JUndefined | JNull => Throw (EngineText (CannotReadProperty "0"))
  | JArr elems => Normal (nth 0 elems JUndefined)
  | JObj props => Normal (lookup props "0")
  | JStr s => Normal (if String.eqb s EmptyString then JUndefined else JStr (first_char s))
  | JBool _ | JNum _ => Normal JUndefined
  end.

(** [base?.(...)]: when [base] is nullish the rest of the chain is skipped
    and the chain is [undefined]. *)
Definition optional (base : jsval) (rest : jsval -> completion jsval)
  : completion jsval :=
  if nullish base then Normal JUndefined else rest base.

Section ArrayJoin.

Variable conv : jsval -> completion string.
Variable sep : string.

(** [Array.prototype.join]: [undefined] and [null] elements give the empty
    string, every other element is converted with [ToString] (here [conv]);
    elements are converted from left to right. *)
Fixpoint array_join (elems : list jsval) : completion string :=
  match elems with
  | [] => Normal EmptyString
  | x :: rest =>
      first <~ (if nullish x then Normal EmptyString else conv x) ;;
      match rest with
      | [] => Normal first
      | _ :: _ => others <~ array_join rest ;; Normal (first ++ sep ++ others)
      end
  end.

End ArrayJoin.

(** [ToString]: what a template literal and [join] apply to a value.  An
    array is joined with commas; a plain object gives ["[object Object]"]
    unless an own property [toString] (never callable in parsed JSON) hides
    [Object.prototype.toString], in which case the conversion throws. *)
Fixpoint ToString (v : jsval) : completion string :=
  match v with
  | JUndefined => Normal "undefined"
  | JNull => Normal "null"
  | JBool true => Normal "true"
  | JBool false => Normal "false"
  | JNum r => Normal r
  | JStr s => Normal s
  | JArr elems => array_join ToString "," elems
  | JObj props =>
      if has_own props "toString"
      then Throw (EngineText CannotConvertToPrimitive)
      else Normal "[object Object]"
  end.

(** [arr.map(f)] for an [f] that may throw. *)
Fixpoint array_map (f : jsval -> completion jsval) (elems : list jsval)
  : completion (list jsval) :=
  match elems with
  | [] => Normal []
  | x :: rest =>
      y <~ f x ;; ys <~ array_map f rest ;; Normal (y :: ys)
  end.

(** ** The environment, the transport and the reply *)

(** The five variables of [process.env] the server reads; [None] is an unset
    variable. *)
Record environment : Type := {
  OPENAI_API_KEY : option string;
  GOOGLE_API_KEY : option string;
  AZURE_OPENAI_KEY : option string;
  AZURE_OPENAI_ENDPOINT : option string;
  AZURE_OPENAI_DEPLOYMENT : option string
}.

(** [!!process.env.X]: the variable is set and not empty. *)
Definition present (x : option string) : bool :=
  match x with
  | Some s => negb (String.eqb s EmptyString)
  | None => false
  end.

(** [process.env.X] inside a template literal or as a header value. *)
Definition env_text (x : option string) : string :=
  match x with
  | Some s => s
  | None => "undefined"
  end.

(** The [providers] object of the login route, in the order it is written,
    and the [available] array computed from it. *)
Definition providers (env : environment) : list (string * bool) :=
  [ ("gemini", present (GOOGLE_API_KEY env));
    ("chatgpt", present (OPENAI_API_KEY env));
    ("copilot", present (AZURE_OPENAI_KEY env)
                && present (AZURE_OPENAI_ENDPOINT env)
                && present (AZURE_OPENAI_DEPLOYMENT env)) ].

Definition available (env : environment) : list string :=
  map fst (filter snd (providers env)).

(** The arguments of one call of [fetch].  [body] is the value handed to
    [JSON.stringify], before serialization. *)
Record fetch_request : Type := {
  url : string;
  method : string;
  headers : list (string * string);
  body : jsval
}.

(** What [fetch] resolves to: the HTTP status, and what [r.text()] and
    [r.json()] give (reading or parsing the body can fail). *)
Record fetch_response : Type := {
  status : nat;
  text : completion string;
  json : completion jsval
}.

(** [r.ok]: the status is in the range 200-299. *)
Definition ok (r : fetch_response) : bool :=
  Nat.leb 200 (status r) && Nat.ltb (status r) 300.

(** The object passed to [res.json]: [{ ok:true, output }] or
    [{ ok:false, error }]. *)
Inductive result : Type :=
| Success (output : jsval)
| Failure (error : message).

(** What the route answers: the status set by [res.status] (200 when the
    handler sets none) and the object sent. *)
Record reply : Type := {
  res_status : nat;
  res_json : result
}.

(** ** The handler monad: calls made to [fetch] so far, and exceptions *)

Definition M (A : Type) : Type :=
  list fetch_request -> completion A * list fetch_request.

Definition ret {A : Type} (a : A) : M A :=
  fun calls => (Normal a, calls).

Definition throw {A : Type} (m : message) : M A :=
  fun calls => (Throw m, calls).

Definition bind {A B : Type} (c : M A) (k : A -> M B) : M B :=
  fun calls =>
    match c calls with
    | (Normal a, calls') => k a calls'
    | (Throw m, calls') => (Throw m, calls')
    end.

Definition lift {A : Type} (c : completion A) : M A :=
  fun calls => (c, calls).

Notation "x <- c ;; k" := (bind c (fun x => k))
  (at level 61, c at next level, right associativity).

(** ** Reading the generated text out of a vendor's reply *)

(** [data.choices?.[0]?.message?.content ?? ''] (chatgpt and copilot). *)
Definition choices_content (data : jsval) : completion jsval :=
  choices <~ Get data "choices" ;;
  v <~ optional choices (fun choices =>
         first <~ Get0 choices ;;
         optional first (fun first =>
           msg <~ Get first "message" ;;
           optional msg (fun msg => Get msg "content"))) ;;
  Normal (coalesce v (JStr EmptyString)).

(** [parts.map(p=>p.text).join('')]: only an array has a [map] to call. *)
Definition parts_text (parts : jsval) : completion jsval :=
  match parts with
  | JArr elems =>
      texts <~ array_map (fun p => Get p "text") elems ;;
      joined <~ array_join ToString EmptyString texts ;;
      Normal (JStr joined)
  | _ => Throw (EngineText (NotAFunction "parts.map"))
  end.

(** [data.candidates?.[0]?.content?.parts?.map(p=>p.text).join('') ?? '']
    (gemini). *)
Definition candidates_text (data : jsval) : completion jsval :=
  candidates <~ Get data "candidates" ;;
  v <~ optional candidates (fun candidates =>
         first <~ Get0 candidates ;;
         optional first (fun first =>
           content <~ Get first "content" ;;
           optional content (fun content =>
             parts <~ Get content "parts" ;;
             optional parts parts_text))) ;;
  Normal (coalesce v (JStr EmptyString)).

(** ** The route [POST /api/generate] *)

Definition respond (code : nat) (r : result) : reply :=
  {| res_status := code; res_json := r |}.

Section Generate.

Variable env : environment.
Variable transport : fetch_request -> completion fetch_response.

(** [await fetch(url, options)]: the call is recorded, and the transport
    decides what it resolves to or rejects with. *)
Definition fetch (req : fetch_request) : M fetch_response :=
  fun calls => (transport req, (calls ++ [req])%list).

(** The sampling parameters shared by the chatgpt and copilot requests. *)
Definition sampling : list (string * jsval) :=
  [ ("temperature", JNum "0.85");
    ("presence_penalty", JNum "0.2");
    ("frequency_penalty", JNum "0.2") ].

Definition messages (system : string) (input : jsval) : jsval :=
  JArr [ JObj [("role", JStr "system"); ("content", JStr system)];
         JObj [("role", JStr "user"); ("content", input)] ].

(** [if (provider === 'chatgpt') { ... }]. *)
Definition chatgpt (system : string) (input : jsval) : M reply :=
  if negb (present (OPENAI_API_KEY env)) then throw (Text "OPENAI_API_KEY missing")
  else
    r <- fetch {|
           url := "https://api.openai.com/v1/chat/completions";
           method := "POST";
           headers := [ ("Authorization", "Bearer " ++ env_text (OPENAI_API_KEY env));
                        ("Content-Type", "application/json") ];
           body := JObj (("model", JStr "gpt-4o-mini")
                         :: ("messages", messages system input)
                         :: sampling) |} ;;
    if negb (ok r) then
      t <- lift (text r) ;; ret (respond 500 (Failure (Text t)))
    else
      data <- lift (json r) ;;
      output <- lift (choices_content data) ;;
      ret (respond 200 (Success output)).

(** [if (provider === 'gemini') { ... }].  The template literal that merges
    the prompt and the input is evaluated while the argument of [fetch] is
    built, so it can throw before any call is made. *)
Definition gemini (system : string) (input : jsval) : M reply :=
  if negb (present (GOOGLE_API_KEY env)) then throw (Text "GOOGLE_API_KEY missing")
  else
    let model := "gemini-2.5-flash" in
    let url_ := "https://generativelanguage.googleapis.com/v1beta/models/"
                  ++ model ++ ":generateContent" in
    shown <- lift (ToString input) ;;
    r <- fetch {|
           url := url_;
           method := "POST";
           headers := [ ("x-goog-api-key", env_text (GOOGLE_API_KEY env));
                        ("Content-Type", "application/json") ];
           body := JObj [ ("contents",
                           JArr [ JObj [ ("role", JStr "user");
                                         ("parts",
                                          JArr [ JObj [ ("text",
                                            JStr (system ++ nl ++ nl ++ "User:" ++ nl ++ shown)) ] ]) ] ]);
                          ("generationConfig", JObj [("temperature", JNum "0.7")]) ] |} ;;
    if negb (ok r) then
      t <- lift (text r) ;; ret (respond 500 (Failure (Text t)))
    else
      data <- lift (json r) ;;
      text_ <- lift (candidates_text data) ;;
      ret (respond 200 (Success text_)).

(** [if (provider === 'copilot') { ... }]. *)
Definition copilot (system : string) (input : jsval) : M reply :=
  let key := AZURE_OPENAI_KEY env in
  let ep := AZURE_OPENAI_ENDPOINT env in
  let dep := AZURE_OPENAI_DEPLOYMENT env in
  if negb (present key) || negb (present ep) || negb (present dep)
  then throw (Text "Azure OpenAI env missing")
  else
    let url_ := env_text ep ++ "/openai/deployments/" ++ env_text dep
                  ++ "/chat/completions?api-version=2024-06-01" in
    r <- fetch {|
           url := url_;
           method := "POST";
           headers := [ ("api-key", env_text key);
                        ("Content-Type", "application/json") ];
           body := JObj (("messages", messages system input) :: sampling) |} ;;
    if negb (ok r) then
      t <- lift (text r) ;; ret (respond 500 (Failure (Text t)))
    else
      data <- lift (json r) ;;
      text_ <- lift (choices_content data) ;;
      ret (respond 200 (Success text_)).

(** [req.body || {}]. *)
Definition body_or_empty (req_body : jsval) : jsval :=
  if truthy req_body then req_body else JObj [].

(** The [try] block of the handler. *)
Definition generate_try (req_body : jsval) : M reply :=
  let b := body_or_empty req_body in
  p <- lift (Get b "provider") ;;
  task <- lift (Get b "task") ;;
  input <- lift (Get b "input") ;;
  m <- lift (Get b "mode") ;;
  let provider := with_default p (JStr "chatgpt") in
  let mode := with_default m (JStr "default") in
  if negb (truthy task) || negb (truthy input)
  then ret (respond 400 (Failure (Text "task and input required")))
  else
    let system := systemFor task mode in
    if provider === "chatgpt" then chatgpt system input
    else if provider === "gemini" then gemini system input
    else if provider === "copilot" then copilot system input
    else ret (respond 400 (Failure (Text "Unknown provider"))).

(** The whole handler: [catch (e)] answers 500 with [e.message].  The result
    is the reply together with the calls made to [fetch], oldest first. *)
Definition generate (req_body : jsval) : reply * list fetch_request :=
  match generate_try req_body [] with
  | (Normal r, calls) => (r, calls)
  | (Throw m, calls) => (respond 500 (Failure m), calls)
  end.

End Generate.

(** ** The route [POST /api/login] *)

(** The object the login route sends: [{ ok:true, available }] or
    [{ ok:false, message }]. *)
Inductive login_result : Type :=
| Providers (names : list string)
| NoProvider (message : string).

Record login_reply : Type := {
  login_status : nat;
  login_json : login_result
}.

(** The handler of the login route; it does not read the request. *)
Definition login (env : environment) : login_reply :=
  let available := available env in
  if Nat.eqb (List.length available) 0 then
    {| login_status := 400;
       login_json := NoProvider "No provider configured. Add keys to .env" |}
  else
    {| login_status := 200; login_json := Providers available |}.

(** ** Vocabulary of the properties *)

(** [s.split(sep)] for a one-character separator. *)
Fixpoint split (sep : ascii) (s : string) : list string :=
  match s with
  | EmptyString => [EmptyString]
  | String a rest =>
      if Ascii.eqb a sep then EmptyString :: split sep rest
      else match split sep rest with
           | piece :: pieces => String a piece :: pieces
           | [] => [String a EmptyString]
           end
  end.

(** The four task identifiers [systemFor] has a branch for. *)
Definition known_task (task : jsval) : bool :=
  (task === "sermonCrafter") || (task === "sermonEnhancer")
  || (task === "bibleStudyTool") || (task === "biblicalApplications").

(** The task-mode matrix read as a table: the role block of a task. *)
Definition role_block (task : jsval) : string :=
  if task === "sermonCrafter" then sermonCrafter_ROLE
  else if task === "sermonEnhancer" then sermonEnhancer_ROLE
  else if task === "bibleStudyTool" then bibleStudyTool_ROLE
  else if task === "biblicalApplications" then biblicalApplications_ROLE
  else fallback_ROLE.

(** The task-mode matrix read as a table: the assignment block of a known
    task ([mode] matters for [sermonCrafter] only).  The fallback has no
    assignment block. *)
Definition assignment_block (task mode : jsval) : option string :=
  if task === "sermonCrafter" then
    if with_default mode (JStr "default") === "outline"
    then Some sermonCrafter_ASSIGNMENT
    else Some sermonCrafter_ASSIGNMENT_FULL
  else if task === "sermonEnhancer" then Some sermonEnhancer_ASSIGNMENT
  else if task === "bibleStudyTool" then Some bibleStudyTool_ASSIGNMENT
  else if task === "biblicalApplications" then Some biblicalApplications_ASSIGNMENT
  else None.

(** A prompt laid out as the four blocks in the fixed order, one per line. *)
Definition layered (prompt : string) : Prop :=
  exists role assignment,
    prompt = role ++ nl ++ assignment ++ nl
             ++ GENERAL_GUIDELINES ++ nl ++ HUMAN_VOICE.

(** The outline-stop instruction: the last sentence of the outline
    assignment. *)
Definition STOP_INSTRUCTION : string :=
  "Then STOP and wait for explicit user approval. Do NOT write the full sermon.".

(** The word-count structure of the full sermon: the three section headers
    of [ASSIGNMENT_FULL] with their target lengths. *)
Definition WORD_COUNTS : list string :=
  [ "Introduction (~200 words)"; "Body (~1700 words)"; "Conclusion (~200 words)" ].

(** The message of the error each provider branch throws when a variable it
    needs is unset or empty. *)
Definition credential_error (provider : string) : string :=
  if String.eqb provider "chatgpt" then "OPENAI_API_KEY missing"
  else if String.eqb provider "gemini" then "GOOGLE_API_KEY missing"
  else "Azure OpenAI env missing".

(** The provider a request selects: the [provider] property, [chatgpt] when
    the request has none. *)
Definition selected (props : list (string * jsval)) : jsval :=
  with_default (lookup props "provider") (JStr "chatgpt").

(** A [provider] property that is present and names none of the three
    providers. *)
Definition unknown_provider (p : jsval) : Prop :=
  p <> JUndefined /\ p <> JStr "chatgpt" /\ p <> JStr "gemini" /\ p <> JStr "copilot".

(** One step into a parsed reply: a named property, or the element at
    index 0. *)
Inductive step : Type :=
| Key (key : string)
| First.

(** What a step reads off a value, by the property reads of the engine;
    [null] and [undefined] have no properties to read. *)
Definition read (s : step) (v : jsval) : completion jsval :=
  match s with
  | Key key => Get v key
  | First => Get0 v
  end.

(** The value a path leads to in a reply; [None] when the path breaks at a
    value that is [null] or [undefined]. *)
Fixpoint reach (path : list step) (v : jsval) : option jsval :=
  match path with
  | [] => Some v
  | s :: rest =>
      match read s v with
      | Normal w => reach rest w
      | Throw _ => None
      end
  end.

(** The field at the end of a path is absent: the path breaks on the way, or
    ends at [null] or [undefined]. *)
Definition absent (path : list step) (v : jsval) : bool :=
  match reach path v with
  | Some w => nullish w
  | None => true
  end.

(** Where the generated text of a chat-completion reply (chatgpt, copilot)
    lies, and where the parts of a generate-content reply (gemini) lie. *)
Definition content_path : list step :=
  [Key "choices"; First; Key "message"; Key "content"].

Definition parts_path : list step :=
  [Key "candidates"; First; Key "content"; Key "parts"].

(** The reply of the vendor behind [provider] carries no generated text.
    For chatgpt and copilot: the content of the first choice's message is
    absent, which includes absent or empty [choices].  For gemini: the parts
    of the first candidate's content are absent (which includes absent or
    empty [candidates]), or are not an array of parts, or are an array in
    which no element has a [text]. *)
Definition no_generated_text (provider data : jsval) : bool :=
  if provider === "gemini" then
    match reach parts_path data with
    | Some (JArr parts) => forallb (absent [Key "text"]) parts
    | _ => true
    end
  else absent content_path data.

(** The shape the readers of the handler cope with: the body is not [null],
    and for gemini the parts, when they are not absent, are an array without
    [null] elements. *)
Definition well_shaped (provider data : jsval) : bool :=
  negb (nullish data)
  && (if provider === "gemini" then
        match reach parts_path data with
        | Some (JArr parts) => forallb (fun part => negb (nullish part)) parts
        | Some parts => nullish parts
        | None => true
        end
      else true).

(** The request body is a JSON object (not an array, not a primitive, not
    absent). *)
Definition is_object (v : jsval) : bool :=
  match v with
  | JObj _ => true
  | _ => false
  end.

(** What each provider branch does with the outcome of its call to
    [fetch]: a rejection is rethrown; a status outside 200-299 is answered
    with 500 and the body text; otherwise the body is parsed, the generated
    text read out of it with [extract], and answered with 200. *)
Definition settle (extract : jsval -> completion jsval)
    (outcome : completion fetch_response) : completion reply :=
  r <~ outcome ;;
  if negb (ok r) then
    t <~ text r ;; Normal (respond 500 (Failure (Text t)))
  else
    data <~ json r ;;
    output <~ extract data ;;
    Normal (respond 200 (Success output)).

(** The statement that a run which made its call and got an answer with a
    status in 200-299 and a JSON body without generated text replies with
    status 200 and the empty string for output. *)
Definition textless_gives_empty_output (env : environment)
    (transport : fetch_request -> completion fetch_response)
    (props : list (string * jsval)) (req : fetch_request)
    (r : fetch_response) (data : jsval) : Prop :=
  snd (generate env transport (JObj props)) = [req] ->
  transport req = Normal r ->
  ok r = true ->
  json r = Normal data ->
  no_generated_text (selected props) data = true ->
  fst (generate env transport (JObj props))
  = respond 200 (Success (JStr EmptyString)).

(** The six templates [systemFor] can return. *)
Inductive template : Type :=
| SermonOutline
| SermonFull
| Enhancer
| StudyGuide
| Applications
| Fallback.

(** The template a task and a mode lead to, by the tests of [systemFor] in
    their order. *)
Definition template_of (task mode : jsval) : template :=
  if task === "sermonCrafter" then
    if with_default mode (JStr "default") === "outline"
    then SermonOutline else SermonFull
  else if task === "sermonEnhancer" then Enhancer
  else if task === "bibleStudyTool" then StudyGuide
  else if task === "biblicalApplications" then Applications
  else Fallback.

(** The prompt the handler composes for a request. *)
Definition prompt_of (props : list (string * jsval)) : string :=
  systemFor (lookup props "task")
            (with_default (lookup props "mode") (JStr "default")).

(** The generated-text reader of the provider a request selects. *)
Definition extract_for (props : list (string * jsval))
  : jsval -> completion jsval :=
  if selected props === "gemini" then candidates_text else choices_content.

(** The [Content-Type] header every branch sends. *)
Definition json_content_type : string * string :=
  ("Content-Type", "application/json").

(** The three calls of the handler, as functions of what they are built
    from: the arguments of [fetch] in the chatgpt, gemini and copilot
    branches. *)
Definition openai_request (key system : string) (input : jsval) : fetch_request :=
  {| url := "https://api.openai.com/v1/chat/completions";
     method := "POST";
     headers := [ ("Authorization", "Bearer " ++ key); json_content_type ];
     body := JObj (("model", JStr "gpt-4o-mini")
                   :: ("messages", messages system input)
                   :: sampling) |}.

Definition google_request (key system shown : string) : fetch_request :=
  {| url := "https://generativelanguage.googleapis.com/v1beta/models/gemini-2.5-flash:generateContent";
     method := "POST";
     headers := [ ("x-goog-api-key", key); json_content_type ];
     body := JObj [ ("contents",
                     JArr [ JObj [ ("role", JStr "user");
                                   ("parts",
                                    JArr [ JObj [ ("text",
                                      JStr (system ++ nl ++ nl ++ "User:" ++ nl ++ shown)) ] ]) ] ]);
                    ("generationConfig", JObj [("temperature", JNum "0.7")]) ] |}.

Definition azure_request (key ep dep system : string) (input : jsval)
  : fetch_request :=
  {| url := ep ++ "/openai/deployments/" ++ dep
               ++ "/chat/completions?api-version=2024-06-01";
     method := "POST";
     headers := [ ("api-key", key); json_content_type ];
     body := JObj (("messages", messages system input) :: sampling) |}.

(** The call a request leads to, when it leads to one: the selected
    provider is known, its variables are set, and (for gemini) the input
    converts to a string. *)
Inductive call_made (env : environment) (props : list (string * jsval))
  : fetch_request -> Prop :=
| made_openai :
    selected props = JStr "chatgpt" ->
    present (OPENAI_API_KEY env) = true ->
    call_made env props
      (openai_request (env_text (OPENAI_API_KEY env)) (prompt_of props)
         (lookup props "input"))
| made_google shown :
    selected props = JStr "gemini" ->
    present (GOOGLE_API_KEY env) = true ->
    ToString (lookup props "input") = Normal shown ->
    call_made env props
      (google_request (env_text (GOOGLE_API_KEY env)) (prompt_of props) shown)
| made_azure :
    selected props = JStr "copilot" ->
    present (AZURE_OPENAI_KEY env) = true ->
    present (AZURE_OPENAI_ENDPOINT env) = true ->
    present (AZURE_OPENAI_DEPLOYMENT env) = true ->
    call_made env props
      (azure_request (env_text (AZURE_OPENAI_KEY env))
         (env_text (AZURE_OPENAI_ENDPOINT env))
         (env_text (AZURE_OPENAI_DEPLOYMENT env))
         (prompt_of props) (lookup props "input")).

(** [catch (e)] applied to how the [try] block ended. *)
Definition caught (c : completion reply) : reply :=
  match c with
  | Normal r => r
  | Throw m => respond 500 (Failure m)
  end.

(** The three ways a run of the handler can go: it answers 400 before any
    call, it throws before any call, or it makes one call and settles on its
    outcome. *)
Inductive run_shape (env : environment)
    (transport : fetch_request -> completion fetch_response) (req_body : jsval)
  : reply * list fetch_request -> Prop :=
| run_refused e :
    run_shape env transport req_body (respond 400 (Failure (Text e)), [])
| run_threw m :
    run_shape env transport req_body (respond 500 (Failure m), [])
| run_called props req :
    req_body = JObj props ->
    truthy (lookup props "task") = true ->
    truthy (lookup props "input") = true ->
    call_made env props req ->
    run_shape env transport req_body
      (caught (settle (extract_for props) (transport req)), [req]).

(** A part of a candidate whose [text] is the string [s]. *)
Definition part_with_text (part : jsval) (s : string) : Prop :=
  exists props, part = JObj props /\ lookup props "text" = JStr s.

(** ** Sample data used to exercise the theorems *)

(** An environment with the OpenAI and Google keys set and no Azure
    variable. *)
Definition sample_env : environment :=
  {| OPENAI_API_KEY := Some "sk-test";
     GOOGLE_API_KEY := Some "g-test";
     AZURE_OPENAI_KEY := None;
     AZURE_OPENAI_ENDPOINT := None;
     AZURE_OPENAI_DEPLOYMENT := None |}.

(** An environment with no variable set. *)
Definition empty_env : environment :=
  {| OPENAI_API_KEY := None;
     GOOGLE_API_KEY := None;
     AZURE_OPENAI_KEY := None;
     AZURE_OPENAI_ENDPOINT := None;
     AZURE_OPENAI_DEPLOYMENT := None |}.

(** A transport stub that answers every call with the same response. *)
Definition stub (r : fetch_response) : fetch_request -> completion fetch_response :=
  fun _ => Normal r.

(** The double-quote character. *)
Definition dq : string := String (ascii_of_nat 34) EmptyString.

(** HTTP 500 with the body [rate limited], which is not JSON. *)
Definition rate_limited : fetch_response :=
  {| status := 500;
     text := Normal "rate limited";
     json := Throw (Text "Unexpected token r in JSON at position 0") |}.

(** HTTP 200 with a JSON body whose [choices] array is empty. *)
Definition no_choices : fetch_response :=
  {| status := 200;
     text := Normal ("{" ++ dq ++ "choices" ++ dq ++ ":[]}");
     json := Normal (JObj [("choices", JArr [])]) |}.

(** The requests [{ task:'', input:'x' }] and [{ task:'x', input:'' }]. *)
Definition empty_task : list (string * jsval) :=
  [ ("task", JStr EmptyString); ("input", JStr "x") ].

Definition empty_input : list (string * jsval) :=
  [ ("task", JStr "x"); ("input", JStr EmptyString) ].

(** The request [{ task:'biblicalApplications', input:'Joseph' }]. *)
Definition joseph : list (string * jsval) :=
  [ ("task", JStr "biblicalApplications"); ("input", JStr "Joseph") ].

(** An environment with every variable set. *)
Definition full_env : environment :=
  {| OPENAI_API_KEY := Some "sk-test";
     GOOGLE_API_KEY := Some "g-test";
     AZURE_OPENAI_KEY := Some "az-test";
     AZURE_OPENAI_ENDPOINT := Some "https://example.openai.azure.com";
     AZURE_OPENAI_DEPLOYMENT := Some "gpt" |}.

(** A transport stub that rejects every call. *)
Definition unreachable : fetch_request -> completion fetch_response :=
  fun _ => Throw (Text "connect ECONNREFUSED").

(** HTTP 200 with a body that is not JSON. *)
Definition not_json : fetch_response :=
  {| status := 200;
     text := Normal "<html>";
     json := Throw (Text "Unexpected token < in JSON at position 0") |}.

(** HTTP 200 with the JSON body [null]. *)
Definition null_json : fetch_response :=
  {| status := 200; text := Normal "null"; json := Normal JNull |}.

(** HTTP 200 with two choices. *)
Definition two_choices : fetch_response :=
  {| status := 200;
     text := Normal EmptyString;
     json := Normal (JObj [("choices",
               JArr [ JObj [("message", JObj [("content", JStr "first")])];
                      JObj [("message", JObj [("content", JStr "second")])] ])]) |}.

(** HTTP 200 with one candidate of two parts, and with one candidate whose
    [parts] is an object. *)
Definition two_parts : fetch_response :=
  {| status := 200;
     text := Normal EmptyString;
     json := Normal (JObj [("candidates",
               JArr [ JObj [("content",
                 JObj [("parts", JArr [ JObj [("text", JStr "Grace ")];
                                        JObj [("text", JStr "abounds")] ])])] ])]) |}.

Definition parts_object : fetch_response :=
  {| status := 200;
     text := Normal EmptyString;
     json := Normal (JObj [("candidates",
               JArr [ JObj [("content", JObj [("parts", JObj [])])] ])]) |}.

(** HTTP 200 with a first candidate that is [null], followed by a candidate
    whose content is a string. *)
Definition null_candidate : fetch_response :=
  {| status := 200;
     text := Normal EmptyString;
     json := Normal (JObj [("candidates",
               JArr [JNull; JObj [("content", JStr "late")]])]) |}.

(** The request of [joseph] sent to gemini, and with an input that has its
    own [toString]. *)
Definition joseph_gemini : list (string * jsval) :=
  ("provider", JStr "gemini") :: joseph.

Definition unprintable_gemini : list (string * jsval) :=
  [ ("provider", JStr "gemini");
    ("task", JStr "biblicalApplications");
    ("input", JObj [("toString", JNum "1")]) ].

(** * Properties *)

(** ** Substrings *)

Lemma startsWith_spec (needle hay : string) :
  startsWith hay needle = true <-> exists after, hay = needle ++ after.
Proof.
  revert hay; induction needle as [|a needle IH]; intros hay; simpl.
  - split; [intros _; now exists hay | reflexivity].
  - destruct hay as [|b hay].
    + split; [discriminate | intros [after H]; discriminate].
    + rewrite andb_true_iff, Ascii.eqb_eq, IH. split.
      * intros [-> [after ->]]. now exists after.
      * intros [after H]. injection H as -> ->. split; [reflexivity | now exists after].
Qed.

Lemma includes_spec (hay needle : string) :
  includes hay needle = true <-> substring_of needle hay.
Proof.
  unfold substring_of. split.
  - induction hay as [|a hay IH]; simpl; rewrite orb_true_iff.
    + intros [H | H]; [| discriminate].
      apply startsWith_spec in H. destruct H as [after H].
      now exists EmptyString, after.
    + intros [H | H].
      * apply startsWith_spec in H. destruct H as [after H].
        now exists EmptyString, after.
      * destruct (IH H) as (before & after & ->).
        now exists (String a before), after.
  - intros (before & after & ->).
    induction before as [|a before IH].
    + assert (H : startsWith (needle ++ after) needle = true)
        by (apply startsWith_spec; now exists after).
      destruct (needle ++ after); simpl in *; now rewrite H.
    + simpl. rewrite IH. apply orb_true_r.
Qed.

Lemma append_assoc (a b c : string) : (a ++ b) ++ c = a ++ b ++ c.
Proof.
  induction a as [|x a IH]; simpl; [reflexivity | now rewrite IH].
Qed.

Lemma append_empty_r (a : string) : a ++ EmptyString = a.
Proof.
  induction a as [|x a IH]; simpl; [reflexivity | now rewrite IH].
Qed.

Lemma excludes_spec (hay needle : string) :
  includes hay needle = false -> ~ substring_of needle hay.
Proof.
  intros H S. apply includes_spec in S. congruence.
Qed.

(** ** Strict equality with a literal *)

Lemma strict_eq_lit_true (v : jsval) (lit : string) :
  (v === lit) = true <-> v = JStr lit.
Proof.
  destruct v; simpl; try (split; [discriminate | intros H; discriminate H]).
  rewrite String.eqb_eq. split; [intros -> | intros [= ->]]; reflexivity.
Qed.

Lemma strict_eq_lit_false (v : jsval) (lit : string) :
  v <> JStr lit -> (v === lit) = false.
Proof.
  intros H. destruct (v === lit) eqn:E; [| reflexivity].
  apply strict_eq_lit_true in E. contradiction.
Qed.

(** ** The prompt builder *)

(** Every branch of [systemFor] ends with the general guidelines, one
    separator character, and the voice guidelines. *)
Lemma systemFor_tail (task mode : jsval) :
  exists before sep,
    systemFor task mode = before ++ GENERAL_GUIDELINES ++ sep ++ HUMAN_VOICE
    /\ (sep = nl \/ sep = " ").
Proof.
  unfold systemFor.
  destruct (task === "sermonCrafter");
    [destruct (with_default mode (JStr "default") === "outline") |
     destruct (task === "sermonEnhancer");
       [| destruct (task === "bibleStudyTool");
            [| destruct (task === "biblicalApplications")]]].
  - exists (sermonCrafter_ROLE ++ nl ++ sermonCrafter_ASSIGNMENT ++ nl), nl.
    split; [vm_compute; reflexivity | now left].
  - exists (sermonCrafter_ROLE ++ nl ++ sermonCrafter_ASSIGNMENT_FULL ++ nl), nl.
    split; [vm_compute; reflexivity | now left].
  - exists (sermonEnhancer_ROLE ++ nl ++ sermonEnhancer_ASSIGNMENT ++ nl), nl.
    split; [vm_compute; reflexivity | now left].
  - exists (bibleStudyTool_ROLE ++ nl ++ bibleStudyTool_ASSIGNMENT ++ nl), nl.
    split; [vm_compute; reflexivity | now left].
  - exists (biblicalApplications_ROLE ++ nl ++ biblicalApplications_ASSIGNMENT ++ nl), nl.
    split; [vm_compute; reflexivity | now left].
  - exists "You are a helpful assistant for pastoral ministry. ", " ".
    split; [vm_compute; reflexivity | now right].
Qed.

(** With a task no branch tests for, [systemFor] reaches its last [return]. *)
Lemma systemFor_unknown (task mode : jsval) :
  known_task task = false ->
  systemFor task mode =
    fallback_ROLE ++ " " ++ GENERAL_GUIDELINES ++ " " ++ HUMAN_VOICE.
Proof.
  unfold known_task, systemFor. intros H.
  repeat (apply orb_false_iff in H; destruct H as [H ?]).
  repeat match goal with E : (_ === _) = false |- _ => rewrite E; clear E end.
  vm_compute; reflexivity.
Qed.

(** [mode] reaches the outline branch only as the string [outline]. *)
Lemma mode_not_outline (mode : jsval) :
  mode <> JStr "outline" ->
  (with_default mode (JStr "default") === "outline") = false.
Proof.
  intros H. destruct mode; try reflexivity.
  simpl. apply (strict_eq_lit_false (JStr s)). exact H.
Qed.

(** C1, as the claim states it, fails: the prompt composed for a task that
    no branch knows is not laid out as role, assignment, general guidelines
    and voice guidelines separated by newlines; it holds no newline at
    all. *)
Lemma systemFor_fallback_not_layered :
  ~ layered (systemFor (JStr "prayerWriter") (JStr "default")).
Proof.
  intros (role & assignment & H).
  assert (I : includes (systemFor (JStr "prayerWriter") (JStr "default")) nl = true).
  { apply includes_spec. exists role. eexists. exact H. }
  vm_compute in I. discriminate I.
Qed.

(** C1, amended: for each of the four known tasks the prompt is the role
    block, the assignment block, the general guidelines and the voice
    guidelines, in that order, joined by newlines, and splitting the prompt
    at newlines gives back exactly these four blocks; for every other task
    the prompt is the fallback role sentence, the general guidelines and the
    voice guidelines, in that order, joined by single spaces. *)
Theorem systemFor_layout (task mode : jsval) :
  if known_task task then
    exists assignment,
      assignment_block task mode = Some assignment
      /\ systemFor task mode =
           join nl [role_block task; assignment; GENERAL_GUIDELINES; HUMAN_VOICE]
      /\ split (ascii_of_nat 10) (systemFor task mode) =
           [role_block task; assignment; GENERAL_GUIDELINES; HUMAN_VOICE]
  else
    assignment_block task mode = None
    /\ systemFor task mode =
         join " " [fallback_ROLE; GENERAL_GUIDELINES; HUMAN_VOICE].
Proof.
  unfold known_task, role_block, assignment_block, systemFor.
  destruct (task === "sermonCrafter");
    [destruct (with_default mode (JStr "default") === "outline") |
     destruct (task === "sermonEnhancer");
       [| destruct (task === "bibleStudyTool");
            [| destruct (task === "biblicalApplications")]]];
    cbn [orb];
    try (eexists; split; [reflexivity | split; vm_compute; reflexivity]).
  split; vm_compute; reflexivity.
Qed.

(** C2: for the task [sermonCrafter], the prompt of mode [outline] contains
    the stop instruction and none of the three word-count headers; the prompt
    of every other mode contains the three word-count headers and not the
    stop instruction. *)
Theorem sermonCrafter_two_phases :
  (let outline := systemFor (JStr "sermonCrafter") (JStr "outline") in
   substring_of STOP_INSTRUCTION outline
   /\ Forall (fun w => ~ substring_of w outline) WORD_COUNTS)
  /\ (forall mode, mode <> JStr "outline" ->
      let full := systemFor (JStr "sermonCrafter") mode in
      Forall (fun w => substring_of w full) WORD_COUNTS
      /\ ~ substring_of STOP_INSTRUCTION full).
Proof.
  split.
  - split.
    + apply includes_spec. vm_compute; reflexivity.
    + repeat constructor; apply excludes_spec; vm_compute; reflexivity.
  - intros mode H. unfold systemFor.
    rewrite (mode_not_outline mode H).
    change (JStr "sermonCrafter" === "sermonCrafter") with true.
    cbv iota zeta. split.
    + repeat constructor; apply includes_spec; vm_compute; reflexivity.
    + apply excludes_spec. vm_compute; reflexivity.
Qed.

Lemma sermonCrafter_two_phases_witness :
  JStr "full" <> JStr "outline"
  /\ Forall (fun w => substring_of w (systemFor (JStr "sermonCrafter") (JStr "full")))
       WORD_COUNTS
  /\ ~ substring_of STOP_INSTRUCTION (systemFor (JStr "sermonCrafter") (JStr "full")).
Proof.
  assert (H : JStr "full" <> JStr "outline") by discriminate.
  split; [exact H | exact (proj2 sermonCrafter_two_phases (JStr "full") H)].
Defined.

(** C3: [systemFor] returns a prompt for every task and mode, and the prompt
    is never empty; for every task that no branch knows (the empty string and
    non-string values included) the prompt is the fallback, in which the
    pastoral-assistant sentence, the general guidelines and the voice
    guidelines all occur. *)
Theorem systemFor_total_fallback (task mode : jsval) :
  (exists prompt, systemFor task mode = prompt /\ prompt <> EmptyString)
  /\ (known_task task = false ->
      systemFor task mode =
        fallback_ROLE ++ " " ++ GENERAL_GUIDELINES ++ " " ++ HUMAN_VOICE
      /\ substring_of fallback_ROLE (systemFor task mode)
      /\ substring_of GENERAL_GUIDELINES (systemFor task mode)
      /\ substring_of HUMAN_VOICE (systemFor task mode)).
Proof.
  split.
  - exists (systemFor task mode). split; [reflexivity |].
    unfold systemFor.
    destruct (task === "sermonCrafter");
      [destruct (with_default mode (JStr "default") === "outline") |
       destruct (task === "sermonEnhancer");
         [| destruct (task === "bibleStudyTool");
              [| destruct (task === "biblicalApplications")]]];
      vm_compute; discriminate.
  - intros H. rewrite (systemFor_unknown task mode H).
    split; [reflexivity |].
    split; [| split].
    + exists EmptyString. eexists. reflexivity.
    + exists (fallback_ROLE ++ " "). eexists. vm_compute; reflexivity.
    + exists (fallback_ROLE ++ " " ++ GENERAL_GUIDELINES ++ " "), EmptyString.
      vm_compute; reflexivity.
Qed.

Lemma systemFor_total_fallback_witness :
  known_task (JStr EmptyString) = false
  /\ systemFor (JStr EmptyString) (JStr "outline") =
       fallback_ROLE ++ " " ++ GENERAL_GUIDELINES ++ " " ++ HUMAN_VOICE.
Proof.
  assert (H : known_task (JStr EmptyString) = false) by reflexivity.
  split; [exact H |].
  exact (proj1 (proj2 (systemFor_total_fallback (JStr EmptyString) (JStr "outline")) H)).
Defined.

(** C8: for every task and mode the prompt ends with the general guidelines,
    one separator character and the voice guidelines, so both blocks occur in
    it byte for byte, whatever the task and the mode. *)
Theorem guidelines_in_every_prompt (task mode : jsval) :
  substring_of GENERAL_GUIDELINES (systemFor task mode)
  /\ substring_of HUMAN_VOICE (systemFor task mode)
  /\ exists before sep,
       systemFor task mode = before ++ GENERAL_GUIDELINES ++ sep ++ HUMAN_VOICE.
Proof.
  destruct (systemFor_tail task mode) as (before & sep & E & _).
  split; [| split].
  - exists before, (sep ++ HUMAN_VOICE). exact E.
  - exists (before ++ GENERAL_GUIDELINES ++ sep), EmptyString.
    rewrite E, append_empty_r, !append_assoc. reflexivity.
  - exists before, sep. exact E.
Qed.

(** C9: for every task other than [sermonCrafter], the prompt does not
    depend on the mode. *)
Theorem mode_ignored_elsewhere (task m1 m2 : jsval) :
  task <> JStr "sermonCrafter" ->
  systemFor task m1 = systemFor task m2.
Proof.
  intros H. unfold systemFor.
  rewrite (strict_eq_lit_false task "sermonCrafter" H).
  reflexivity.
Qed.

Lemma mode_ignored_elsewhere_witness :
  JStr "bibleStudyTool" <> JStr "sermonCrafter"
  /\ systemFor (JStr "bibleStudyTool") (JStr "outline")
     = systemFor (JStr "bibleStudyTool") JNull.
Proof.
  assert (H : JStr "bibleStudyTool" <> JStr "sermonCrafter") by discriminate.
  split; [exact H | exact (mode_ignored_elsewhere _ _ _ H)].
Defined.

(** ** The generate route *)

Section GenerateProperties.

Variable env : environment.
Variable transport : fetch_request -> completion fetch_response.

(** The handler on a JSON object: the four properties are read, the two
    defaults applied, and the checks made in the order of the source. *)
Lemma generate_try_object (props : list (string * jsval)) :
  generate_try env transport (JObj props) =
    let task := lookup props "task" in
    let input := lookup props "input" in
    let system := systemFor task (with_default (lookup props "mode") (JStr "default")) in
    if negb (truthy task) || negb (truthy input)
    then ret (respond 400 (Failure (Text "task and input required")))
    else if selected props === "chatgpt" then chatgpt env transport system input
    else if selected props === "gemini" then gemini env transport system input
    else if selected props === "copilot" then copilot env transport system input
    else ret (respond 400 (Failure (Text "Unknown provider"))).
Proof.
  reflexivity.
Qed.

(** A body that is not an object has none of the four properties. *)
Lemma generate_not_object (req_body : jsval) :
  is_object req_body = false ->
  generate env transport req_body =
    (respond 400 (Failure (Text "task and input required")), []).
Proof.
  intros H. destruct req_body as [| |b|r|s| |]; try discriminate H;
    unfold generate, generate_try, body_or_empty; cbn [truthy];
    try reflexivity.
  - destruct b; reflexivity.
  - destruct (negb _); reflexivity.
  - destruct (negb _); reflexivity.
Qed.

Lemma unknown_provider_selected (props : list (string * jsval)) :
  unknown_provider (lookup props "provider") ->
  (selected props === "chatgpt") = false
  /\ (selected props === "gemini") = false
  /\ (selected props === "copilot") = false.
Proof.
  unfold unknown_provider, selected. intros (U & A & B & C).
  assert (E : with_default (lookup props "provider") (JStr "chatgpt")
              = lookup props "provider")
    by (destruct (lookup props "provider"); [contradiction | reflexivity ..]).
  rewrite E. repeat split; apply strict_eq_lit_false; assumption.
Qed.

(** C4: a request whose [task] or [input] is missing or empty (or otherwise
    falsy), and a request whose [provider] is present but names none of the
    three providers, are both answered with status 400 and an error text,
    without any call to [fetch]. *)
Theorem generate_client_error (props : list (string * jsval)) :
  (truthy (lookup props "task") = false \/ truthy (lookup props "input") = false)
  \/ unknown_provider (lookup props "provider") ->
  snd (generate env transport (JObj props)) = []
  /\ res_status (fst (generate env transport (JObj props))) = 400
  /\ res_json (fst (generate env transport (JObj props))) =
       Failure (Text (if negb (truthy (lookup props "task"))
                         || negb (truthy (lookup props "input"))
                      then "task and input required"
                      else "Unknown provider")).
Proof.
  intros H. unfold generate. rewrite generate_try_object. cbv zeta.
  destruct (negb (truthy (lookup props "task")) || negb (truthy (lookup props "input")))
    eqn:V.
  - repeat split.
  - destruct H as [[H | H] | H].
    + rewrite H in V. discriminate V.
    + rewrite H, orb_true_r in V. discriminate V.
    + destruct (unknown_provider_selected props H) as (A & B & C).
      rewrite A, B, C. repeat split.
Qed.

(** Each provider branch either throws before calling [fetch], or calls it
    once and settles on what it gave. *)
Lemma chatgpt_run (system : string) (input : jsval) :
  (exists m, chatgpt env transport system input [] = (Throw m, []))
  \/ (exists req, chatgpt env transport system input []
                  = (settle choices_content (transport req), [req])).
Proof.
  unfold chatgpt. destruct (negb (present (OPENAI_API_KEY env))).
  - left. eexists. reflexivity.
  - right. unfold bind, fetch, settle, bindC. cbn [app].
    match goal with |- context [transport ?q] => exists q end.
    destruct (transport _) as [r|m]; [| reflexivity].
    destruct (negb (ok r)); unfold lift, ret.
    + destruct (text r); reflexivity.
    + destruct (json r) as [data|]; [| reflexivity].
      destruct (choices_content data); reflexivity.
Qed.

Lemma gemini_run (system : string) (input : jsval) :
  (exists m, gemini env transport system input [] = (Throw m, []))
  \/ (exists req, gemini env transport system input []
                  = (settle candidates_text (transport req), [req])).
Proof.
  unfold gemini. destruct (negb (present (GOOGLE_API_KEY env))).
  - left. eexists. reflexivity.
  - cbv zeta. destruct (ToString input) as [shown|m].
    + right. unfold bind, fetch, settle, bindC, lift at 1. cbn [app].
      match goal with |- context [transport ?q] => exists q end.
      destruct (transport _) as [r|m]; [| reflexivity].
      destruct (negb (ok r)); unfold lift, ret.
      * destruct (text r); reflexivity.
      * destruct (json r) as [data|]; [| reflexivity].
        destruct (candidates_text data); reflexivity.
    + left. eexists. reflexivity.
Qed.

Lemma copilot_run (system : string) (input : jsval) :
  (exists m, copilot env transport system input [] = (Throw m, []))
  \/ (exists req, copilot env transport system input []
                  = (settle choices_content (transport req), [req])).
Proof.
  unfold copilot. cbv zeta.
  destruct (negb (present (AZURE_OPENAI_KEY env))
            || negb (present (AZURE_OPENAI_ENDPOINT env))
            || negb (present (AZURE_OPENAI_DEPLOYMENT env))).
  - left. eexists. reflexivity.
  - right. unfold bind, fetch, settle, bindC. cbn [app].
    match goal with |- context [transport ?q] => exists q end.
    destruct (transport _) as [r|m]; [| reflexivity].
    destruct (negb (ok r)); unfold lift, ret.
    + destruct (text r); reflexivity.
    + destruct (json r) as [data|]; [| reflexivity].
      destruct (choices_content data); reflexivity.
Qed.

(** [catch] keeps the calls made before the [throw]. *)
Lemma snd_caught (c : completion reply) (calls : list fetch_request) :
  snd (match (c, calls) with
       | (Normal r, cs) => (r, cs)
       | (Throw m, cs) => (respond 500 (Failure m), cs)
       end) = calls.
Proof.
  destruct c; reflexivity.
Qed.

(** A run of the handler that called [fetch] handled an object with truthy
    [task] and [input] and a known provider, made that one call, and settled
    on its outcome with the reader of the selected provider. *)
Lemma generate_called (req_body : jsval) (req : fetch_request) :
  snd (generate env transport req_body) = [req] ->
  exists props,
    req_body = JObj props
    /\ generate_try env transport req_body [] =
         (settle (if selected props === "gemini" then candidates_text
                  else choices_content) (transport req), [req]).
Proof.
  destruct (is_object req_body) eqn:O.
  2:{ rewrite (generate_not_object req_body O). discriminate. }
  destruct req_body; try discriminate O. clear O.
  intros H. exists props. split; [reflexivity |].
  unfold generate in H. rewrite generate_try_object in H |- *. cbv zeta in H |- *.
  set (system := systemFor _ _) in *.
  destruct (negb (truthy (lookup props "task")) || negb (truthy (lookup props "input"))).
  { discriminate H. }
  destruct (selected props === "chatgpt") eqn:A.
  { assert (G : (selected props === "gemini") = false)
      by (apply strict_eq_lit_true in A; rewrite A; reflexivity).
    rewrite G.
    destruct (chatgpt_run system (lookup props "input")) as [[m E] | [q E]];
      rewrite E in H |- *.
    - discriminate H.
    - rewrite snd_caught in H. injection H as ->. reflexivity. }
  destruct (selected props === "gemini") eqn:B.
  { destruct (gemini_run system (lookup props "input")) as [[m E] | [q E]];
      rewrite E in H |- *.
    - discriminate H.
    - rewrite snd_caught in H. injection H as ->. reflexivity. }
  destruct (selected props === "copilot") eqn:C.
  { destruct (copilot_run system (lookup props "input")) as [[m E] | [q E]];
      rewrite E in H |- *.
    - discriminate H.
    - rewrite snd_caught in H. injection H as ->. reflexivity. }
  discriminate H.
Qed.

(** C5: a valid request whose selected provider the login route would report
    as not configured (one of its variables unset or empty) is answered with
    status 500 and the message of that provider's credential check, a reply
    that differs from a client error by its status, and no call to [fetch]
    is made. *)
Theorem generate_configuration_error (props : list (string * jsval)) (p : string) :
  truthy (lookup props "task") = true ->
  truthy (lookup props "input") = true ->
  selected props = JStr p ->
  In (p, false) (providers env) ->
  generate env transport (JObj props) =
    (respond 500 (Failure (Text (credential_error p))), [])
  /\ res_status (fst (generate env transport (JObj props))) <> 400.
Proof.
  intros T I S P.
  assert (G : generate env transport (JObj props) =
              (respond 500 (Failure (Text (credential_error p))), [])).
  { unfold generate. rewrite generate_try_object. cbv zeta.
    rewrite T, I, S. cbn [negb orb].
    destruct P as [P | [P | [P | []]]]; injection P as <- P.
    - change (JStr "gemini" === "chatgpt") with false.
      change (JStr "gemini" === "gemini") with true. cbv iota.
      unfold gemini. rewrite P. reflexivity.
    - change (JStr "chatgpt" === "chatgpt") with true. cbv iota.
      unfold chatgpt. rewrite P. reflexivity.
    - change (JStr "copilot" === "chatgpt") with false.
      change (JStr "copilot" === "gemini") with false.
      change (JStr "copilot" === "copilot") with true. cbv iota.
      unfold copilot. cbv zeta.
      rewrite <- !negb_andb, P. reflexivity. }
  split; [exact G |]. rewrite G. discriminate.
Qed.

(** C6: when the handler has called the vendor and the vendor has answered
    with a status outside 200-299, the reply has status 500 and its error
    text is the body of the vendor's answer, unchanged. *)
Theorem generate_upstream_error (req_body : jsval) (req : fetch_request)
    (r : fetch_response) (b : string) :
  snd (generate env transport req_body) = [req] ->
  transport req = Normal r ->
  ok r = false ->
  text r = Normal b ->
  fst (generate env transport req_body) = respond 500 (Failure (Text b)).
Proof.
  intros H R K B.
  destruct (generate_called req_body req H) as (props & _ & E).
  unfold generate. rewrite E. unfold settle.
  rewrite R. cbn [bindC]. rewrite K. cbn [negb]. rewrite B. reflexivity.
Qed.

(** A step reads something off every value but [null] and [undefined]. *)
Lemma read_nullish (s : step) (v : jsval) :
  nullish v = true -> exists m, read s v = Throw m.
Proof.
  destruct s, v; try discriminate; intros _; eexists; reflexivity.
Qed.

Lemma read_defined (s : step) (v : jsval) :
  nullish v = false -> exists w, read s v = Normal w.
Proof.
  destruct s, v; try discriminate; intros _; eexists; reflexivity.
Qed.

(** On a body that is not [null], the chat reader gives the content its path
    reaches, and the empty string when the content is absent. *)
Lemma choices_content_reach (data : jsval) :
  nullish data = false ->
  choices_content data =
    Normal (match reach content_path data with
            | Some v => coalesce v (JStr EmptyString)
            | None => JStr EmptyString
            end).
Proof.
  intros N. unfold choices_content, optional, content_path. cbn [reach read].
  destruct (read_defined (Key "choices") data N) as [c Ec].
  cbn [read] in Ec. rewrite Ec. cbn [bindC].
  destruct (nullish c) eqn:Nc.
  { destruct (read_nullish First c Nc) as [m Em]. cbn [read] in Em.
    rewrite Em. reflexivity. }
  destruct (read_defined First c Nc) as [f Ef].
  cbn [read] in Ef. rewrite Ef. cbn [bindC].
  destruct (nullish f) eqn:Nf.
  { destruct (read_nullish (Key "message") f Nf) as [m Em]. cbn [read] in Em.
    rewrite Em. reflexivity. }
  destruct (read_defined (Key "message") f Nf) as [g Eg].
  cbn [read] in Eg. rewrite Eg. cbn [bindC].
  destruct (nullish g) eqn:Ng.
  { destruct (read_nullish (Key "content") g Ng) as [m Em]. cbn [read] in Em.
    rewrite Em. reflexivity. }
  destruct (read_defined (Key "content") g Ng) as [v Ev].
  cbn [read] in Ev. rewrite Ev. reflexivity.
Qed.

(** On a body that is not [null], the gemini reader gives the empty string
    when the parts are absent, and otherwise what joining their texts
    gives. *)
Lemma candidates_text_reach (data : jsval) :
  nullish data = false ->
  candidates_text data =
    match reach parts_path data with
    | Some parts =>
        if nullish parts then Normal (JStr EmptyString)
        else joined <~ parts_text parts ;;
             Normal (coalesce joined (JStr EmptyString))
    | None => Normal (JStr EmptyString)
    end.
Proof.
  intros N. unfold candidates_text, optional, parts_path. cbn [reach read].
  destruct (read_defined (Key "candidates") data N) as [c Ec].
  cbn [read] in Ec. rewrite Ec. cbn [bindC].
  destruct (nullish c) eqn:Nc.
  { destruct (read_nullish First c Nc) as [m Em]. cbn [read] in Em.
    rewrite Em. reflexivity. }
  destruct (read_defined First c Nc) as [f Ef].
  cbn [read] in Ef. rewrite Ef. cbn [bindC].
  destruct (nullish f) eqn:Nf.
  { destruct (read_nullish (Key "content") f Nf) as [m Em]. cbn [read] in Em.
    rewrite Em. reflexivity. }
  destruct (read_defined (Key "content") f Nf) as [g Eg].
  cbn [read] in Eg. rewrite Eg. cbn [bindC].
  destruct (nullish g) eqn:Ng.
  { destruct (read_nullish (Key "parts") g Ng) as [m Em]. cbn [read] in Em.
    rewrite Em. reflexivity. }
  destruct (read_defined (Key "parts") g Ng) as [p Ep].
  cbn [read] in Ep. rewrite Ep. cbn [bindC].
  destruct (nullish p); [reflexivity |].
  destruct (parts_text p); reflexivity.
Qed.

(** Joining values that are all [null] or [undefined] gives the empty
    string. *)
Lemma array_join_nullish (texts : list jsval) :
  Forall (fun v => nullish v = true) texts ->
  array_join ToString EmptyString texts = Normal EmptyString.
Proof.
  induction 1 as [|v texts N R IH]; [reflexivity |].
  cbn [array_join]. rewrite N. cbn [bindC].
  destruct texts as [|next texts]; [reflexivity |].
  rewrite IH. reflexivity.
Qed.

(** Reading [text] off parts none of which is [null] and none of which has
    a text gives nullish values only. *)
Lemma array_map_no_text (parts : list jsval) :
  forallb (absent [Key "text"]) parts = true ->
  forallb (fun part => negb (nullish part)) parts = true ->
  exists texts,
    array_map (fun p => Get p "text") parts = Normal texts
    /\ Forall (fun v => nullish v = true) texts.
Proof.
  induction parts as [|part parts IH]; cbn [forallb].
  - intros _ _. exists []. split; [reflexivity | constructor].
  - rewrite !andb_true_iff. intros [A As] [N Ns].
    destruct (IH As Ns) as (texts & E & F).
    apply negb_true_iff in N.
    destruct (read_defined (Key "text") part N) as [w Ew].
    unfold absent in A. cbn [reach read] in A, Ew. rewrite Ew in A.
    exists (w :: texts). cbn [array_map]. rewrite Ew, E.
    split; [reflexivity | constructor; assumption].
Qed.

(** Reading [text] off parts one of which is [null] throws. *)
Lemma array_map_null_part (parts : list jsval) :
  forallb (fun part => negb (nullish part)) parts = false ->
  exists m, array_map (fun p => Get p "text") parts = Throw m.
Proof.
  induction parts as [|part parts IH]; cbn [forallb]; [discriminate |].
  destruct (nullish part) eqn:N; cbn [negb andb].
  - intros _. destruct (read_nullish (Key "text") part N) as [m Em].
    cbn [read] in Em. exists m. cbn [array_map]. rewrite Em. reflexivity.
  - intros H. destruct (IH H) as [m Em].
    destruct (read_defined (Key "text") part N) as [w Ew]. cbn [read] in Ew.
    exists m. cbn [array_map]. rewrite Ew, Em. reflexivity.
Qed.

(** What each reader makes of a reply without generated text. *)
Lemma choices_content_textless (data : jsval) :
  absent content_path data = true ->
  if negb (nullish data) then choices_content data = Normal (JStr EmptyString)
  else exists m, choices_content data = Throw m.
Proof.
  intros A. destruct (nullish data) eqn:N; cbn [negb].
  - destruct (read_nullish (Key "choices") data N) as [m Em]. cbn [read] in Em.
    exists m. unfold choices_content. rewrite Em. reflexivity.
  - rewrite (choices_content_reach data N). unfold absent in A.
    destruct (reach content_path data) as [v|]; [| reflexivity].
    unfold coalesce. rewrite A. reflexivity.
Qed.

Lemma candidates_text_textless (data : jsval) :
  no_generated_text (JStr "gemini") data = true ->
  if well_shaped (JStr "gemini") data
  then candidates_text data = Normal (JStr EmptyString)
  else exists m, candidates_text data = Throw m.
Proof.
  unfold no_generated_text, well_shaped.
  change (JStr "gemini" === "gemini") with true. cbv iota.
  intros A. destruct (nullish data) eqn:N; cbn [negb andb].
  { destruct (read_nullish (Key "candidates") data N) as [m Em]. cbn [read] in Em.
    exists m. unfold candidates_text. rewrite Em. reflexivity. }
  rewrite (candidates_text_reach data N).
  destruct (reach parts_path data) as [parts|]; [| reflexivity].
  destruct parts as [ | | b | n | s | parts | props ]; cbn [nullish parts_text bindC];
    try reflexivity; try (eexists; reflexivity).
  destruct (forallb (fun part => negb (nullish part)) parts) eqn:S.
  - destruct (array_map_no_text parts A S) as (texts & E & F).
    rewrite E. cbn [bindC]. rewrite (array_join_nullish texts F). reflexivity.
  - destruct (array_map_null_part parts S) as [m Em].
    exists m. rewrite Em. reflexivity.
Qed.

(** C7, amended: when the handler has called the vendor and the vendor has
    answered with a status in 200-299 and a JSON body that carries no
    generated text (the array of choices or candidates absent, [null] or
    empty, or a property absent or [null] along the path the selected
    provider reads, or no part with a text), the reply has status 200 and
    its [output] is the empty string, provided the body is not [null] and,
    for gemini, the parts are absent, [null] or an array without [null]
    elements; on the text-less bodies of another shape the reply has
    status 500. *)
Theorem generate_empty_output (props : list (string * jsval))
    (req : fetch_request) (r : fetch_response) (data : jsval) :
  snd (generate env transport (JObj props)) = [req] ->
  transport req = Normal r ->
  ok r = true ->
  json r = Normal data ->
  no_generated_text (selected props) data = true ->
  if well_shaped (selected props) data
  then fst (generate env transport (JObj props))
       = respond 200 (Success (JStr EmptyString))
  else exists m,
         fst (generate env transport (JObj props)) = respond 500 (Failure m).
Proof.
  intros H R K J W.
  destruct (generate_called (JObj props) req H) as (props' & P & E).
  injection P as <-.
  unfold generate. rewrite E. unfold settle.
  rewrite R. cbn [bindC]. rewrite K. cbn [negb]. rewrite J. cbn [bindC].
  destruct (selected props === "gemini") eqn:G.
  - apply strict_eq_lit_true in G. rewrite G in W |- *.
    pose proof (candidates_text_textless data W) as T.
    destruct (well_shaped (JStr "gemini") data).
    + rewrite T. reflexivity.
    + destruct T as [m ->]. exists m. reflexivity.
  - unfold no_generated_text in W. unfold well_shaped. rewrite G in W |- *.
    pose proof (choices_content_textless data W) as T.
    rewrite andb_true_r.
    destruct (negb (nullish data)).
    + rewrite T. reflexivity.
    + destruct T as [m ->]. exists m. reflexivity.
Qed.

(** C10: a request whose body is absent or is not an object is answered like
    a request with an empty object for body: status 400 with the error text
    [task and input required], and no call to [fetch]; a falsy body (absent,
    [null]) is replaced by the empty object before its properties are
    read. *)
Theorem generate_without_object_body (req_body : jsval) :
  is_object req_body = false ->
  generate env transport req_body =
    (respond 400 (Failure (Text "task and input required")), [])
  /\ generate env transport req_body = generate env transport (JObj [])
  /\ (truthy req_body = false -> body_or_empty req_body = JObj []).
Proof.
  intros H. rewrite (generate_not_object req_body H).
  split; [reflexivity | split; [reflexivity |]].
  intros F. unfold body_or_empty. rewrite F. reflexivity.
Qed.

End GenerateProperties.

(** ** The theorems of the generate route on the sample requests *)

Lemma generate_client_error_witness :
  (truthy (lookup empty_task "task") = false
   /\ snd (generate sample_env (stub no_choices) (JObj empty_task)) = []
   /\ res_status (fst (generate sample_env (stub no_choices) (JObj empty_task))) = 400)
  /\ (truthy (lookup empty_input "input") = false
      /\ snd (generate sample_env (stub no_choices) (JObj empty_input)) = []
      /\ res_status (fst (generate sample_env (stub no_choices) (JObj empty_input))) = 400).
Proof.
  assert (H : truthy (lookup empty_task "task") = false) by reflexivity.
  assert (I : truthy (lookup empty_input "input") = false) by reflexivity.
  split.
  - split; [exact H |].
    destruct (generate_client_error sample_env (stub no_choices) empty_task
                (or_introl (or_introl H))) as (A & B & _).
    split; [exact A | exact B].
  - split; [exact I |].
    destruct (generate_client_error sample_env (stub no_choices) empty_input
                (or_introl (or_intror I))) as (A & B & _).
    split; [exact A | exact B].
Defined.

Lemma generate_configuration_error_witness :
  In ("chatgpt", false) (providers empty_env)
  /\ generate empty_env (stub no_choices) (JObj (("provider", JStr "chatgpt") :: joseph))
     = (respond 500 (Failure (Text "OPENAI_API_KEY missing")), []).
Proof.
  assert (H : In ("chatgpt", false) (providers empty_env))
    by (right; left; reflexivity).
  split; [exact H |].
  exact (proj1 (generate_configuration_error empty_env (stub no_choices)
                  (("provider", JStr "chatgpt") :: joseph) "chatgpt"
                  eq_refl eq_refl eq_refl H)).
Defined.

Lemma generate_upstream_error_witness :
  ok rate_limited = false
  /\ fst (generate sample_env (stub rate_limited) (JObj joseph))
     = respond 500 (Failure (Text "rate limited")).
Proof.
  split; [reflexivity |].
  eapply generate_upstream_error with (r := rate_limited);
    [vm_compute; reflexivity | reflexivity | reflexivity | reflexivity].
Defined.

Lemma generate_empty_output_witness :
  (no_generated_text (selected joseph) (JObj [("choices", JArr [])]) = true
   /\ fst (generate sample_env (stub no_choices) (JObj joseph))
      = respond 200 (Success (JStr EmptyString)))
  /\ (no_generated_text (selected joseph_gemini)
        (JObj [("candidates", JArr [JNull; JObj [("content", JStr "late")]])]) = true
      /\ fst (generate sample_env (stub null_candidate) (JObj joseph_gemini))
         = respond 200 (Success (JStr EmptyString))).
Proof.
  assert (W : no_generated_text (selected joseph) (JObj [("choices", JArr [])]) = true)
    by reflexivity.
  assert (V : no_generated_text (selected joseph_gemini)
                (JObj [("candidates", JArr [JNull; JObj [("content", JStr "late")]])])
              = true)
    by reflexivity.
  split; (split; [assumption |]).
  - refine (generate_empty_output sample_env (stub no_choices) joseph
              (openai_request "sk-test" (prompt_of joseph) (JStr "Joseph"))
              no_choices (JObj [("choices", JArr [])]) _ eq_refl eq_refl eq_refl W).
    vm_compute; reflexivity.
  - refine (generate_empty_output sample_env (stub null_candidate) joseph_gemini
              (google_request "g-test" (prompt_of joseph_gemini) "Joseph")
              null_candidate
              (JObj [("candidates", JArr [JNull; JObj [("content", JStr "late")]])])
              _ eq_refl eq_refl eq_refl V).
    vm_compute; reflexivity.
Defined.

(** C7, as the claim states it, fails: a gemini answer with status 200 whose
    first candidate's content has an object for [parts], so that no generated
    text is anywhere in it, is not answered with an empty output; calling
    [map] on the parts throws and the reply has status 500. *)
Lemma generate_textless_not_always_empty :
  ~ textless_gives_empty_output sample_env (stub parts_object) joseph_gemini
      (google_request "g-test" (prompt_of joseph_gemini) "Joseph")
      parts_object
      (JObj [("candidates",
              JArr [ JObj [("content", JObj [("parts", JObj [])])] ])]).
Proof.
  intros C.
  assert (E : fst (generate sample_env (stub parts_object) (JObj joseph_gemini))
              = respond 200 (Success (JStr EmptyString))).
  { apply C; [vm_compute; reflexivity | reflexivity ..]. }
  vm_compute in E. discriminate E.
Qed.

Lemma generate_without_object_body_witness :
  is_object JUndefined = false
  /\ generate sample_env (stub no_choices) JUndefined
     = (respond 400 (Failure (Text "task and input required")), []).
Proof.
  split; [reflexivity |].
  exact (proj1 (generate_without_object_body sample_env (stub no_choices)
                  JUndefined eq_refl)).
Defined.

(** ** The handler run on sample replies *)

(** A gemini reply whose parts carry text: the fragments are joined, a part
    without text adding nothing. *)
Example gemini_joins_parts :
  fst (generate sample_env
         (stub {| status := 200;
                  text := Normal EmptyString;
                  json := Normal (JObj [("candidates",
                            JArr [JObj [("content",
                              JObj [("parts",
                                JArr [JObj [("text", JStr "Grace ")];
                                      JObj [];
                                      JObj [("text", JStr "abounds")]])])]])]) |})
         (JObj (("provider", JStr "gemini") :: joseph)))
  = respond 200 (Success (JStr "Grace abounds")).
Proof.
  vm_compute; reflexivity.
Qed.

(** A reply whose JSON body is [null]: reading [choices] off it throws, and
    the handler answers 500 with the engine's message. *)
Example null_body_is_internal_error :
  fst (generate sample_env
         (stub {| status := 200; text := Normal "null"; json := Normal JNull |})
         (JObj joseph))
  = respond 500 (Failure (EngineText (CannotReadProperty "choices"))).
Proof.
  vm_compute; reflexivity.
Qed.

(** The copilot branch with no Azure variable set makes no call. *)
Example copilot_unconfigured :
  generate sample_env (stub no_choices) (JObj (("provider", JStr "copilot") :: joseph))
  = (respond 500 (Failure (Text "Azure OpenAI env missing")), []).
Proof.
  vm_compute; reflexivity.
Qed.

(** * Further properties *)

(** ** The templates of [systemFor] *)

(** [systemFor] returns the prompt of the template its tests lead to. *)
Lemma systemFor_template (task mode : jsval) :
  systemFor task mode =
    match template_of task mode with
    | SermonOutline => systemFor (JStr "sermonCrafter") (JStr "outline")
    | SermonFull => systemFor (JStr "sermonCrafter") (JStr "default")
    | Enhancer => systemFor (JStr "sermonEnhancer") (JStr "default")
    | StudyGuide => systemFor (JStr "bibleStudyTool") (JStr "default")
    | Applications => systemFor (JStr "biblicalApplications") (JStr "default")
    | Fallback => systemFor JNull (JStr "default")
    end.
Proof.
  unfold template_of, systemFor.
  destruct (task === "sermonCrafter");
    [destruct (with_default mode (JStr "default") === "outline") |
     destruct (task === "sermonEnhancer");
       [| destruct (task === "bibleStudyTool");
            [| destruct (task === "biblicalApplications")]]];
    reflexivity.
Qed.

(** No mode is read once the task is not [sermonCrafter]. *)
Lemma systemFor_skips_mode (task m1 m2 : jsval) :
  task <> JStr "sermonCrafter" -> systemFor task m1 = systemFor task m2.
Proof.
  intros H. unfold systemFor.
  now rewrite (strict_eq_lit_false task "sermonCrafter" H).
Qed.

(** X1: two calls of [systemFor] return the same prompt exactly when their
    arguments lead to the same template: the six templates are pairwise
    different texts, and nothing but the choice of template depends on the
    task and the mode. *)
Theorem systemFor_same_prompt_iff (task mode task' mode' : jsval) :
  systemFor task mode = systemFor task' mode'
  <-> template_of task mode = template_of task' mode'.
Proof.
  rewrite (systemFor_template task mode), (systemFor_template task' mode').
  split.
  - destruct (template_of task mode), (template_of task' mode');
      intros H; try reflexivity;
      apply String.eqb_eq in H; vm_compute in H; discriminate H.
  - intros ->. reflexivity.
Qed.

(** ** The login route *)

Lemma present_true (x : option string) :
  present x = true -> exists key, x = Some key /\ key <> EmptyString /\ env_text x = key.
Proof.
  destruct x as [key|]; [| discriminate]. simpl. intros H.
  exists key. repeat split. intros ->. discriminate H.
Qed.

(** Which names [available] holds. *)
Lemma available_spec (env : environment) (p : string) :
  In p (available env) <->
  (p = "gemini" /\ present (GOOGLE_API_KEY env) = true)
  \/ (p = "chatgpt" /\ present (OPENAI_API_KEY env) = true)
  \/ (p = "copilot" /\ present (AZURE_OPENAI_KEY env) = true
                    /\ present (AZURE_OPENAI_ENDPOINT env) = true
                    /\ present (AZURE_OPENAI_DEPLOYMENT env) = true).
Proof.
  unfold available, providers.
  destruct (present (GOOGLE_API_KEY env)), (present (OPENAI_API_KEY env)),
    (present (AZURE_OPENAI_KEY env)), (present (AZURE_OPENAI_ENDPOINT env)),
    (present (AZURE_OPENAI_DEPLOYMENT env));
    cbn [andb filter map snd fst In];
    (split;
     [ intros H; repeat (destruct H as [<- | H]); try contradiction; tauto
     | intros [[-> H] | [[-> H] | [-> (H & H' & H'')]]];
       try discriminate; tauto ]).
Qed.

(** X2: the names the login route reports are exactly the providers all of
    whose variables are set and not empty (one key for gemini and chatgpt,
    the key, the endpoint and the deployment for copilot), each at most
    once. *)
Theorem available_exactly_configured (env : environment) :
  NoDup (available env)
  /\ forall p,
       In p (available env) <->
       (p = "gemini" /\ present (GOOGLE_API_KEY env) = true)
       \/ (p = "chatgpt" /\ present (OPENAI_API_KEY env) = true)
       \/ (p = "copilot" /\ present (AZURE_OPENAI_KEY env) = true
                         /\ present (AZURE_OPENAI_ENDPOINT env) = true
                         /\ present (AZURE_OPENAI_DEPLOYMENT env) = true).
Proof.
  split; [| apply available_spec].
  unfold available, providers.
  destruct (present (GOOGLE_API_KEY env)), (present (OPENAI_API_KEY env)),
    (present (AZURE_OPENAI_KEY env) && present (AZURE_OPENAI_ENDPOINT env)
     && present (AZURE_OPENAI_DEPLOYMENT env));
    cbn [filter map snd fst];
    repeat (constructor; [cbn [In]; intros H;
                          repeat (destruct H as [H | H]; [discriminate H |]);
                          exact H |]);
    constructor.
Qed.

(** X3: the login route answers 400 exactly when the Google key and the
    OpenAI key are both unset or empty and at least one of the three Azure
    variables is; in every other environment it answers 200 with a non-empty
    list of names. *)
Theorem login_refuses_iff_unconfigured (env : environment) :
  (login_status (login env) = 400 <->
   present (GOOGLE_API_KEY env) = false
   /\ present (OPENAI_API_KEY env) = false
   /\ (present (AZURE_OPENAI_KEY env) = false
       \/ present (AZURE_OPENAI_ENDPOINT env) = false
       \/ present (AZURE_OPENAI_DEPLOYMENT env) = false))
  /\ (login env = {| login_status := 400;
                     login_json := NoProvider "No provider configured. Add keys to .env" |}
      \/ exists p rest,
           login env = {| login_status := 200; login_json := Providers (p :: rest) |}).
Proof.
  unfold login, available, providers. cbv zeta.
  destruct (present (GOOGLE_API_KEY env)), (present (OPENAI_API_KEY env)),
    (present (AZURE_OPENAI_KEY env)), (present (AZURE_OPENAI_ENDPOINT env)),
    (present (AZURE_OPENAI_DEPLOYMENT env));
    cbn [andb filter map snd fst List.length Nat.eqb login_status];
    (split;
     [ split;
       [ intros H; try discriminate H; repeat split; auto
       | intros (A & B & [C | [C | C]]); try discriminate; reflexivity ]
     | first [ left; reflexivity | right; eexists; eexists; reflexivity ] ]).
Qed.

(** ** The shape of a run of the generate route *)

Section RunShape.

Variable env : environment.
Variable transport : fetch_request -> completion fetch_response.

(** The tail the three branches share, run from no call made. *)
Lemma fetch_then_settle (req : fetch_request)
    (extract : jsval -> completion jsval) :
  (r <- fetch transport req ;;
   if negb (ok r) then
     t <- lift (text r) ;; ret (respond 500 (Failure (Text t)))
   else
     data <- lift (json r) ;;
     output <- lift (extract data) ;;
     ret (respond 200 (Success output))) []
  = (settle extract (transport req), [req]).
Proof.
  unfold bind, fetch, settle, bindC, lift, ret. cbn [app].
  destruct (transport req) as [r|m]; [| reflexivity].
  destruct (negb (ok r)).
  - destruct (text r); reflexivity.
  - destruct (json r) as [data|]; [| reflexivity].
    destruct (extract data); reflexivity.
Qed.

Lemma chatgpt_missing (system : string) (input : jsval) :
  present (OPENAI_API_KEY env) = false ->
  chatgpt env transport system input [] = (Throw (Text "OPENAI_API_KEY missing"), []).
Proof.
  intros P. unfold chatgpt. rewrite P. reflexivity.
Qed.

Lemma chatgpt_called (system : string) (input : jsval) :
  present (OPENAI_API_KEY env) = true ->
  chatgpt env transport system input [] =
    (settle choices_content
       (transport (openai_request (env_text (OPENAI_API_KEY env)) system input)),
     [openai_request (env_text (OPENAI_API_KEY env)) system input]).
Proof.
  intros P. unfold chatgpt. rewrite P. cbn [negb].
  apply fetch_then_settle.
Qed.

Lemma gemini_missing (system : string) (input : jsval) :
  present (GOOGLE_API_KEY env) = false ->
  gemini env transport system input [] = (Throw (Text "GOOGLE_API_KEY missing"), []).
Proof.
  intros P. unfold gemini. rewrite P. reflexivity.
Qed.

Lemma gemini_unprintable (system : string) (input : jsval) (m : message) :
  present (GOOGLE_API_KEY env) = true ->
  ToString input = Throw m ->
  gemini env transport system input [] = (Throw m, []).
Proof.
  intros P T. unfold gemini. rewrite P. cbn [negb]. cbv zeta.
  unfold bind at 1. unfold lift at 1. rewrite T. reflexivity.
Qed.

Lemma gemini_called (system : string) (input : jsval) (shown : string) :
  present (GOOGLE_API_KEY env) = true ->
  ToString input = Normal shown ->
  gemini env transport system input [] =
    (settle candidates_text
       (transport (google_request (env_text (GOOGLE_API_KEY env)) system shown)),
     [google_request (env_text (GOOGLE_API_KEY env)) system shown]).
Proof.
  intros P T. unfold gemini. rewrite P. cbn [negb]. cbv zeta.
  unfold bind at 1. unfold lift at 1. rewrite T.
  apply fetch_then_settle.
Qed.

Lemma copilot_missing (system : string) (input : jsval) :
  present (AZURE_OPENAI_KEY env) && present (AZURE_OPENAI_ENDPOINT env)
  && present (AZURE_OPENAI_DEPLOYMENT env) = false ->
  copilot env transport system input [] = (Throw (Text "Azure OpenAI env missing"), []).
Proof.
  intros P. unfold copilot. cbv zeta. rewrite <- !negb_andb, P. reflexivity.
Qed.

Lemma copilot_called (system : string) (input : jsval) :
  present (AZURE_OPENAI_KEY env) = true ->
  present (AZURE_OPENAI_ENDPOINT env) = true ->
  present (AZURE_OPENAI_DEPLOYMENT env) = true ->
  copilot env transport system input [] =
    (settle choices_content
       (transport (azure_request (env_text (AZURE_OPENAI_KEY env))
                     (env_text (AZURE_OPENAI_ENDPOINT env))
                     (env_text (AZURE_OPENAI_DEPLOYMENT env)) system input)),
     [azure_request (env_text (AZURE_OPENAI_KEY env))
        (env_text (AZURE_OPENAI_ENDPOINT env))
        (env_text (AZURE_OPENAI_DEPLOYMENT env)) system input]).
Proof.
  intros K E D. unfold copilot. cbv zeta. rewrite K, E, D. cbn [negb orb].
  apply fetch_then_settle.
Qed.

(** The handler, on a valid request, by selected provider. *)
Lemma generate_valid (props : list (string * jsval)) :
  truthy (lookup props "task") = true ->
  truthy (lookup props "input") = true ->
  generate_try env transport (JObj props) =
    if selected props === "chatgpt"
    then chatgpt env transport (prompt_of props) (lookup props "input")
    else if selected props === "gemini"
    then gemini env transport (prompt_of props) (lookup props "input")
    else if selected props === "copilot"
    then copilot env transport (prompt_of props) (lookup props "input")
    else ret (respond 400 (Failure (Text "Unknown provider"))).
Proof.
  intros T I. rewrite generate_try_object. cbv zeta. rewrite T, I. reflexivity.
Qed.

Lemma generate_caught (req_body : jsval) (c : completion reply)
    (calls : list fetch_request) :
  generate_try env transport req_body [] = (c, calls) ->
  generate env transport req_body = (caught c, calls).
Proof.
  intros E. unfold generate. rewrite E. destruct c; reflexivity.
Qed.

Lemma extract_for_chat (props : list (string * jsval)) :
  selected props <> JStr "gemini" -> extract_for props = choices_content.
Proof.
  intros H. unfold extract_for.
  now rewrite (strict_eq_lit_false _ _ H).
Qed.

Lemma extract_for_gemini (props : list (string * jsval)) :
  selected props = JStr "gemini" -> extract_for props = candidates_text.
Proof.
  intros H. unfold extract_for. now rewrite H.
Qed.

(** Every run of the handler has one of the three shapes. *)
Lemma generate_shape (req_body : jsval) :
  run_shape env transport req_body (generate env transport req_body).
Proof.
  destruct (is_object req_body) eqn:O.
  2:{ rewrite (generate_not_object env transport req_body O). constructor. }
  destruct req_body; try discriminate O. clear O.
  destruct (truthy (lookup props "task")) eqn:T.
  2:{ unfold generate. rewrite generate_try_object. cbv zeta. rewrite T.
      constructor. }
  destruct (truthy (lookup props "input")) eqn:I.
  2:{ unfold generate. rewrite generate_try_object. cbv zeta. rewrite T, I.
      constructor. }
  pose proof (f_equal (fun k => k []) (generate_valid props T I)) as G.
  cbv beta in G.
  destruct (selected props === "chatgpt") eqn:A.
  { apply strict_eq_lit_true in A.
    destruct (present (OPENAI_API_KEY env)) eqn:P.
    - rewrite (chatgpt_called _ _ P) in G.
      rewrite (generate_caught _ _ _ G).
      rewrite <- (extract_for_chat props) by (rewrite A; discriminate).
      apply (run_called env transport (JObj props) props _ eq_refl T I).
      now constructor.
    - rewrite (chatgpt_missing _ _ P) in G.
      rewrite (generate_caught _ _ _ G). constructor. }
  destruct (selected props === "gemini") eqn:B.
  { apply strict_eq_lit_true in B.
    destruct (present (GOOGLE_API_KEY env)) eqn:P.
    - destruct (ToString (lookup props "input")) as [shown|m] eqn:S.
      + rewrite (gemini_called _ _ _ P S) in G.
        rewrite (generate_caught _ _ _ G).
        rewrite <- (extract_for_gemini props B).
        apply (run_called env transport (JObj props) props _ eq_refl T I).
        now constructor.
      + rewrite (gemini_unprintable _ _ _ P S) in G.
        rewrite (generate_caught _ _ _ G). constructor.
    - rewrite (gemini_missing _ _ P) in G.
      rewrite (generate_caught _ _ _ G). constructor. }
  destruct (selected props === "copilot") eqn:C.
  { apply strict_eq_lit_true in C.
    destruct (present (AZURE_OPENAI_KEY env)) eqn:K;
      [destruct (present (AZURE_OPENAI_ENDPOINT env)) eqn:E;
         [destruct (present (AZURE_OPENAI_DEPLOYMENT env)) eqn:D |] |].
    - rewrite (copilot_called _ _ K E D) in G.
      rewrite (generate_caught _ _ _ G).
      rewrite <- (extract_for_chat props) by (rewrite C; discriminate).
      apply (run_called env transport (JObj props) props _ eq_refl T I).
      now constructor.
    - rewrite copilot_missing in G by (rewrite K, E, D; reflexivity).
      rewrite (generate_caught _ _ _ G). constructor.
    - rewrite copilot_missing in G by (rewrite K, E; reflexivity).
      rewrite (generate_caught _ _ _ G). constructor.
    - rewrite copilot_missing in G by (rewrite K; reflexivity).
      rewrite (generate_caught _ _ _ G). constructor. }
  rewrite (generate_caught _ _ _ G).
  constructor.
Qed.

(** What [settle] can end with. *)
Lemma settle_cases (extract : jsval -> completion jsval)
    (outcome : completion fetch_response) :
  (exists m, caught (settle extract outcome) = respond 500 (Failure m))
  \/ (exists r data v,
        outcome = Normal r /\ ok r = true /\ json r = Normal data
        /\ extract data = Normal v
        /\ caught (settle extract outcome) = respond 200 (Success v)).
Proof.
  unfold settle. destruct outcome as [r|m]; cbn [bindC caught].
  2:{ left. now exists m. }
  destruct (ok r) eqn:K; cbn [negb].
  - destruct (json r) as [data|m] eqn:J; cbn [bindC caught].
    2:{ left. now exists m. }
    destruct (extract data) as [v|m] eqn:X; cbn [bindC caught].
    + right. exists r, data, v. repeat split; assumption.
    + left. now exists m.
  - destruct (text r) as [t|m]; cbn [bindC caught]; left; eexists; reflexivity.
Qed.

Lemma coalesce_not_nullish (v : jsval) :
  nullish (coalesce v (JStr EmptyString)) = false.
Proof.
  destruct v; reflexivity.
Qed.

Lemma choices_content_not_nullish (data v : jsval) :
  choices_content data = Normal v -> nullish v = false.
Proof.
  unfold choices_content.
  destruct (Get data "choices") as [choices|]; cbn [bindC]; [| discriminate].
  destruct (optional choices _) as [w|]; cbn [bindC]; [| discriminate].
  intros [= <-]. apply coalesce_not_nullish.
Qed.

(** An optional chain that ends in [parts_text] is [undefined] or a
    string. *)
Lemma optional_string (base : jsval) (rest : jsval -> completion jsval) (v : jsval) :
  (forall w, rest base = Normal w -> w = JUndefined \/ exists s, w = JStr s) ->
  optional base rest = Normal v ->
  v = JUndefined \/ exists s, v = JStr s.
Proof.
  unfold optional. intros H. destruct (nullish base).
  - intros [= <-]. now left.
  - apply H.
Qed.

Lemma parts_text_string (parts v : jsval) :
  parts_text parts = Normal v -> v = JUndefined \/ exists s, v = JStr s.
Proof.
  unfold parts_text. destruct parts; try discriminate.
  destruct (array_map _ elems) as [texts|]; cbn [bindC]; [| discriminate].
  destruct (array_join _ _ texts) as [joined|]; cbn [bindC]; [| discriminate].
  intros [= <-]. right. now exists joined.
Qed.

Lemma candidates_text_string (data v : jsval) :
  candidates_text data = Normal v -> exists s, v = JStr s.
Proof.
  unfold candidates_text.
  destruct (Get data "candidates") as [candidates|]; cbn [bindC]; [| discriminate].
  destruct (optional candidates _) as [w|] eqn:O; cbn [bindC]; [| discriminate].
  intros [= <-].
  assert (W : w = JUndefined \/ exists s, w = JStr s).
  { revert O. apply optional_string. intros w1.
    destruct (Get0 candidates) as [first|]; cbn [bindC]; [| discriminate].
    apply optional_string. intros w2.
    destruct (Get first "content") as [content|]; cbn [bindC]; [| discriminate].
    apply optional_string. intros w3.
    destruct (Get content "parts") as [parts|]; cbn [bindC]; [| discriminate].
    apply optional_string. intros w4. apply parts_text_string. }
  destruct W as [-> | [s ->]]; eexists; reflexivity.
Qed.

(** X4: whatever the request, the environment and the transport, a run of
    the handler calls [fetch] at most once. *)
Theorem generate_at_most_one_call (req_body : jsval) :
  List.length (snd (generate env transport req_body)) <= 1.
Proof.
  destruct (generate_shape req_body); cbn [snd List.length]; repeat constructor.
Qed.

(** X5: a reply with [ok:true] has status 200 and comes after exactly one
    call to the vendor; a reply with [ok:false] has status 400, given before
    any call, or status 500. *)
Theorem generate_reply_shape (req_body : jsval) :
  match res_json (fst (generate env transport req_body)) with
  | Success _ =>
      res_status (fst (generate env transport req_body)) = 200
      /\ List.length (snd (generate env transport req_body)) = 1
  | Failure _ =>
      (res_status (fst (generate env transport req_body)) = 400
       /\ snd (generate env transport req_body) = [])
      \/ res_status (fst (generate env transport req_body)) = 500
  end.
Proof.
  destruct (generate_shape req_body) as [e | m | props req _ _ _ _]; cbn [fst snd].
  - left. split; reflexivity.
  - right. reflexivity.
  - destruct (settle_cases (extract_for props) (transport req))
      as [[m ->] | (r & data & v & _ & _ & _ & _ & ->)]; cbn.
    + right. reflexivity.
    + split; reflexivity.
Qed.

(** X6: the [output] of a reply with [ok:true] is never [null] or
    [undefined], and for a request that selects gemini it is always a
    string. *)
Theorem generate_output_not_nullish (req_body v : jsval) :
  res_json (fst (generate env transport req_body)) = Success v ->
  nullish v = false
  /\ (forall props, req_body = JObj props -> selected props = JStr "gemini" ->
      exists s, v = JStr s).
Proof.
  destruct (generate_shape req_body) as [e | m | props req B _ _ _]; cbn [fst];
    try discriminate.
  destruct (settle_cases (extract_for props) (transport req))
    as [[m ->] | (r & data & w & _ & _ & _ & X & ->)]; cbn; [discriminate |].
  intros [= <-]. split.
  - unfold extract_for in X. destruct (selected props === "gemini").
    + destruct (candidates_text_string _ _ X) as [s ->]. reflexivity.
    + apply (choices_content_not_nullish _ _ X).
  - intros props' -> G. injection B as <-.
    rewrite (extract_for_gemini _ G) in X.
    apply (candidates_text_string _ _ X).
Qed.

(** X7: when the handler has made its call and [fetch] rejects (the vendor
    cannot be reached), the reply has status 500 and carries the message of
    the rejection. *)
Theorem generate_transport_rejection (req_body : jsval) (req : fetch_request)
    (m : message) :
  snd (generate env transport req_body) = [req] ->
  transport req = Throw m ->
  fst (generate env transport req_body) = respond 500 (Failure m).
Proof.
  intros H R.
  destruct (generate_called env transport req_body req H) as (props & _ & E).
  unfold generate. rewrite E. unfold settle. rewrite R. reflexivity.
Qed.

(** X8: when the vendor's answer cannot be used (its status is outside
    200-299 and reading its body fails, or its status is in 200-299 and its
    body is not JSON), the reply has status 500 and carries the message of
    that failure. *)
Theorem generate_unreadable_answer (req_body : jsval) (req : fetch_request)
    (r : fetch_response) (m : message) :
  snd (generate env transport req_body) = [req] ->
  transport req = Normal r ->
  (ok r = false /\ text r = Throw m) \/ (ok r = true /\ json r = Throw m) ->
  fst (generate env transport req_body) = respond 500 (Failure m).
Proof.
  intros H R F.
  destruct (generate_called env transport req_body req H) as (props & _ & E).
  unfold generate. rewrite E. unfold settle. rewrite R. cbn [bindC].
  destruct F as [[K T] | [K J]]; rewrite K; cbn [negb].
  - rewrite T. reflexivity.
  - rewrite J. reflexivity.
Qed.

(** The call of a run is the one [call_made] describes. *)
Lemma generate_call_made (props : list (string * jsval)) (req : fetch_request) :
  In req (snd (generate env transport (JObj props))) ->
  call_made env props req.
Proof.
  destruct (generate_shape (JObj props)) as [e | m | props' req' B _ _ C];
    cbn [snd In]; try contradiction.
  injection B as <-. intros [<- | []]. exact C.
Qed.

(** X9: every call the handler makes is a POST with a JSON content type,
    and it carries a credential only to that credential's own vendor: the
    OpenAI key as a bearer token to the OpenAI URL, the Google key in
    [x-goog-api-key] to the Gemini URL, the Azure key in [api-key] to the URL
    built from the configured endpoint and deployment; the variables used
    are set and not empty. *)
Theorem generate_call_credentials (req_body : jsval) (req : fetch_request) :
  In req (snd (generate env transport req_body)) ->
  method req = "POST"
  /\ ((exists key,
         OPENAI_API_KEY env = Some key /\ key <> EmptyString
         /\ url req = "https://api.openai.com/v1/chat/completions"
         /\ headers req = [("Authorization", "Bearer " ++ key); json_content_type])
      \/ (exists key,
            GOOGLE_API_KEY env = Some key /\ key <> EmptyString
            /\ url req = "https://generativelanguage.googleapis.com/v1beta/models/gemini-2.5-flash:generateContent"
            /\ headers req = [("x-goog-api-key", key); json_content_type])
      \/ (exists key ep dep,
            AZURE_OPENAI_KEY env = Some key /\ key <> EmptyString
            /\ AZURE_OPENAI_ENDPOINT env = Some ep /\ ep <> EmptyString
            /\ AZURE_OPENAI_DEPLOYMENT env = Some dep /\ dep <> EmptyString
            /\ url req = ep ++ "/openai/deployments/" ++ dep
                           ++ "/chat/completions?api-version=2024-06-01"
            /\ headers req = [("api-key", key); json_content_type])).
Proof.
  destruct (generate_shape req_body) as [e | m | props req' _ _ _ C];
    cbn [snd In]; try contradiction.
  intros [<- | []].
  destruct C as [_ P | shown _ P _ | _ K E D].
  - destruct (present_true _ P) as (key & A & N & ->).
    split; [reflexivity |]. left. exists key. repeat split; assumption.
  - destruct (present_true _ P) as (key & A & N & ->).
    split; [reflexivity |]. right. left. exists key. repeat split; assumption.
  - destruct (present_true _ K) as (key & A & N & ->).
    destruct (present_true _ E) as (ep & A' & N' & ->).
    destruct (present_true _ D) as (dep & A'' & N'' & ->).
    split; [reflexivity |]. right. right. exists key, ep, dep.
    repeat split; assumption.
Qed.

(** X10: the call carries the prompt [systemFor] composes for the request's
    task and mode, and the request's input: for chatgpt and copilot as a
    system message and a user message holding the input value unchanged,
    for gemini as one user text made of the prompt, a blank line, the line
    [User:] and the input converted to a string. *)
Theorem generate_call_payload (props : list (string * jsval)) (req : fetch_request) :
  In req (snd (generate env transport (JObj props))) ->
  (selected props = JStr "chatgpt"
   /\ body req = JObj (("model", JStr "gpt-4o-mini")
                       :: ("messages",
                           JArr [ JObj [("role", JStr "system");
                                        ("content", JStr (prompt_of props))];
                                  JObj [("role", JStr "user");
                                        ("content", lookup props "input")] ])
                       :: sampling))
  \/ (selected props = JStr "copilot"
      /\ body req = JObj (("messages",
                           JArr [ JObj [("role", JStr "system");
                                        ("content", JStr (prompt_of props))];
                                  JObj [("role", JStr "user");
                                        ("content", lookup props "input")] ])
                          :: sampling))
  \/ (selected props = JStr "gemini"
      /\ exists shown,
           ToString (lookup props "input") = Normal shown
           /\ body req =
                JObj [ ("contents",
                        JArr [ JObj [ ("role", JStr "user");
                                      ("parts",
                                       JArr [ JObj [ ("text",
                                         JStr (prompt_of props ++ nl ++ nl
                                               ++ "User:" ++ nl ++ shown)) ] ]) ] ]);
                       ("generationConfig", JObj [("temperature", JNum "0.7")]) ]).
Proof.
  intros H. destruct (generate_call_made props req H) as [S _ | shown S _ T | S _ _ _].
  - left. split; [exact S | reflexivity].
  - right. right. split; [exact S |]. exists shown. split; [exact T | reflexivity].
  - right. left. split; [exact S | reflexivity].
Qed.

(** X11: the handler reads nothing of a request object but [task],
    [input], [provider] and [mode], the last two through their defaults: two
    objects that agree on these get the same reply and lead to the same
    call.  In particular a missing [provider] is [chatgpt] and a missing
    [mode] is [default]. *)
Theorem generate_reads_four_properties (props props' : list (string * jsval)) :
  lookup props "task" = lookup props' "task" ->
  lookup props "input" = lookup props' "input" ->
  selected props = selected props' ->
  with_default (lookup props "mode") (JStr "default")
  = with_default (lookup props' "mode") (JStr "default") ->
  generate env transport (JObj props) = generate env transport (JObj props').
Proof.
  intros T I S D. unfold generate.
  rewrite !generate_try_object. cbv zeta. rewrite T, I, S, D. reflexivity.
Qed.

(** X12: for a request whose task is not [sermonCrafter], the [mode]
    property changes neither the reply nor the call made. *)
Theorem generate_ignores_mode (props props' : list (string * jsval)) :
  lookup props "task" <> JStr "sermonCrafter" ->
  lookup props "task" = lookup props' "task" ->
  lookup props "input" = lookup props' "input" ->
  selected props = selected props' ->
  generate env transport (JObj props) = generate env transport (JObj props').
Proof.
  intros N T I S. unfold generate.
  rewrite !generate_try_object. cbv zeta. rewrite <- T, <- I, <- S.
  rewrite (systemFor_skips_mode (lookup props "task")
             (with_default (lookup props "mode") (JStr "default"))
             (with_default (lookup props' "mode") (JStr "default")) N).
  reflexivity.
Qed.

(** X13: the login route and the generate route agree: for a request with
    a task and a non-empty string input, the handler calls the vendor exactly
    when the selected provider is among the names the login route
    reports. *)
Theorem login_agrees_with_generate (props : list (string * jsval)) (p s : string) :
  truthy (lookup props "task") = true ->
  lookup props "input" = JStr s ->
  s <> EmptyString ->
  selected props = JStr p ->
  (In p (available env)
   <-> List.length (snd (generate env transport (JObj props))) = 1).
Proof.
  intros T I N S.
  assert (I' : truthy (lookup props "input") = true).
  { rewrite I. cbn [truthy]. apply negb_true_iff, String.eqb_neq, N. }
  pose proof (f_equal (fun k => k []) (generate_valid props T I')) as G.
  cbv beta in G. rewrite S in G.
  split.
  - intros A. apply available_spec in A.
    destruct A as [[-> P] | [[-> P] | [-> (K & E & D)]]].
    + change (JStr "gemini" === "chatgpt") with false in G.
      change (JStr "gemini" === "gemini") with true in G. cbv iota in G.
      rewrite I in G.
      rewrite (gemini_called _ (JStr s) s P eq_refl) in G.
      rewrite (generate_caught _ _ _ G). reflexivity.
    + change (JStr "chatgpt" === "chatgpt") with true in G. cbv iota in G.
      rewrite (chatgpt_called _ _ P) in G.
      rewrite (generate_caught _ _ _ G). reflexivity.
    + change (JStr "copilot" === "chatgpt") with false in G.
      change (JStr "copilot" === "gemini") with false in G.
      change (JStr "copilot" === "copilot") with true in G. cbv iota in G.
      rewrite (copilot_called _ _ K E D) in G.
      rewrite (generate_caught _ _ _ G). reflexivity.
  - clear G. intros L. apply available_spec.
    destruct (snd (generate env transport (JObj props))) as [|req rest] eqn:C;
      [discriminate L |].
    assert (M : call_made env props req)
      by (apply generate_call_made; rewrite C; now left).
    destruct M as [S' P | shown S' P _ | S' K E D];
      rewrite S in S'; injection S' as ->.
    + right. left. split; [reflexivity | exact P].
    + left. split; [reflexivity | exact P].
    + right. right. repeat split; assumption.
Qed.

(** X14: a chat-completion answer (chatgpt, copilot) whose first choice has
    a message with a content that is not [null] gives a reply with status 200
    whose [output] is that content, whatever the other choices hold. *)
Theorem generate_first_choice (props : list (string * jsval))
    (req : fetch_request) (r : fetch_response)
    (data first msg : list (string * jsval)) (rest : list jsval) (v : jsval) :
  snd (generate env transport (JObj props)) = [req] ->
  transport req = Normal r ->
  ok r = true ->
  json r = Normal (JObj data) ->
  selected props <> JStr "gemini" ->
  lookup data "choices" = JArr (JObj first :: rest) ->
  lookup first "message" = JObj msg ->
  lookup msg "content" = v ->
  nullish v = false ->
  fst (generate env transport (JObj props)) = respond 200 (Success v).
Proof.
  intros H R K J S A B C N.
  destruct (generate_called env transport (JObj props) req H) as (props' & P & E).
  injection P as <-.
  unfold generate. rewrite E. unfold settle.
  rewrite R. cbn [bindC]. rewrite K. cbn [negb]. rewrite J. cbn [bindC].
  rewrite (strict_eq_lit_false _ _ S).
  unfold choices_content. cbn [Get bindC]. rewrite A.
  cbn [optional nullish Get0 nth bindC Get]. rewrite B.
  cbn [optional nullish Get bindC]. rewrite C.
  unfold coalesce. rewrite N. reflexivity.
Qed.

(** Reading parts that all have a string [text], and joining the texts. *)
Lemma array_map_texts (parts : list jsval) (texts : list string) :
  Forall2 part_with_text parts texts ->
  array_map (fun p => Get p "text") parts = Normal (map JStr texts).
Proof.
  induction 1 as [|part s parts texts (props & -> & T) _ IH]; [reflexivity |].
  cbn [array_map Get bindC map]. rewrite T, IH. reflexivity.
Qed.

Lemma array_join_texts (texts : list string) :
  array_join ToString EmptyString (map JStr texts)
  = Normal (String.concat EmptyString texts).
Proof.
  induction texts as [|s texts IH]; [reflexivity |].
  cbn [map array_join nullish ToString bindC].
  destruct texts as [|s' texts]; [reflexivity |].
  cbn [map] in IH |- *. rewrite IH. reflexivity.
Qed.

(** X15: a gemini answer whose first candidate has parts that each hold a
    string [text] gives a reply with status 200 whose [output] is the texts
    of all the parts concatenated in order. *)
Theorem generate_joins_parts (props : list (string * jsval))
    (req : fetch_request) (r : fetch_response)
    (data first content : list (string * jsval)) (rest parts : list jsval)
    (texts : list string) :
  snd (generate env transport (JObj props)) = [req] ->
  transport req = Normal r ->
  ok r = true ->
  json r = Normal (JObj data) ->
  selected props = JStr "gemini" ->
  lookup data "candidates" = JArr (JObj first :: rest) ->
  lookup first "content" = JObj content ->
  lookup content "parts" = JArr parts ->
  Forall2 part_with_text parts texts ->
  fst (generate env transport (JObj props))
  = respond 200 (Success (JStr (String.concat EmptyString texts))).
Proof.
  intros H R K J S A B C T.
  destruct (generate_called env transport (JObj props) req H) as (props' & P & E).
  injection P as <-.
  unfold generate. rewrite E. unfold settle.
  rewrite R. cbn [bindC]. rewrite K. cbn [negb]. rewrite J. cbn [bindC].
  rewrite S. change (JStr "gemini" === "gemini") with true. cbv iota.
  unfold candidates_text. cbn [Get bindC]. rewrite A.
  cbn [optional nullish Get0 nth bindC Get]. rewrite B.
  cbn [optional nullish Get bindC]. rewrite C.
  cbn [optional nullish parts_text].
  rewrite (array_map_texts parts texts T). cbn [bindC].
  rewrite array_join_texts. reflexivity.
Qed.

(** X16: a valid gemini request whose input cannot be converted to a string
    (an object with an own [toString] property, or an array holding one) is
    answered with status 500 and the conversion's message, and no call is
    made; the conversion happens while the request is built. *)
Theorem generate_gemini_unprintable (props : list (string * jsval)) (m : message) :
  truthy (lookup props "task") = true ->
  truthy (lookup props "input") = true ->
  selected props = JStr "gemini" ->
  present (GOOGLE_API_KEY env) = true ->
  ToString (lookup props "input") = Throw m ->
  generate env transport (JObj props) = (respond 500 (Failure m), []).
Proof.
  intros T I S P U.
  pose proof (f_equal (fun k => k []) (generate_valid props T I)) as G.
  cbv beta in G. rewrite S in G.
  change (JStr "gemini" === "chatgpt") with false in G.
  change (JStr "gemini" === "gemini") with true in G. cbv iota in G.
  rewrite (gemini_unprintable _ _ _ P U) in G.
  apply (generate_caught _ _ _ G).
Qed.

(** X17: an answer with a status in 200-299 whose JSON body is [null] is
    not read as an empty output: reading the array of choices or candidates
    off it throws, and the reply has status 500. *)
Theorem generate_null_answer (props : list (string * jsval))
    (req : fetch_request) (r : fetch_response) :
  snd (generate env transport (JObj props)) = [req] ->
  transport req = Normal r ->
  ok r = true ->
  json r = Normal JNull ->
  fst (generate env transport (JObj props)) =
    respond 500 (Failure (EngineText (CannotReadProperty
      (if selected props === "gemini" then "candidates" else "choices")))).
Proof.
  intros H R K J.
  destruct (generate_called env transport (JObj props) req H) as (props' & P & E).
  injection P as <-.
  unfold generate. rewrite E. unfold settle.
  rewrite R. cbn [bindC]. rewrite K. cbn [negb]. rewrite J. cbn [bindC].
  destruct (selected props === "gemini"); reflexivity.
Qed.

(** X18: a gemini answer whose [parts] is present but is not an array (a
    string, a number, an object) is not read as an empty output: calling
    [map] on it throws, and the reply has status 500. *)
Theorem generate_parts_not_array (props : list (string * jsval))
    (req : fetch_request) (r : fetch_response)
    (data first content : list (string * jsval)) (rest : list jsval) (parts : jsval) :
  snd (generate env transport (JObj props)) = [req] ->
  transport req = Normal r ->
  ok r = true ->
  json r = Normal (JObj data) ->
  selected props = JStr "gemini" ->
  lookup data "candidates" = JArr (JObj first :: rest) ->
  lookup first "content" = JObj content ->
  lookup content "parts" = parts ->
  nullish parts = false ->
  (forall elems, parts <> JArr elems) ->
  fst (generate env transport (JObj props)) =
    respond 500 (Failure (EngineText (NotAFunction "parts.map"))).
Proof.
  intros H R K J S A B C N U.
  destruct (generate_called env transport (JObj props) req H) as (props' & P & E).
  injection P as <-.
  unfold generate. rewrite E. unfold settle.
  rewrite R. cbn [bindC]. rewrite K. cbn [negb]. rewrite J. cbn [bindC].
  rewrite S. change (JStr "gemini" === "gemini") with true. cbv iota.
  unfold candidates_text. cbn [Get bindC]. rewrite A.
  cbn [optional nullish Get0 nth bindC Get]. rewrite B.
  cbn [optional nullish Get bindC]. rewrite C.
  unfold optional. rewrite N.
  destruct parts; try reflexivity. destruct (U elems eq_refl).
Qed.

End RunShape.

(** ** The further properties on the sample requests *)

Lemma generate_output_not_nullish_witness :
  res_json (fst (generate sample_env (stub two_choices) (JObj joseph)))
  = Success (JStr "first")
  /\ nullish (JStr "first") = false.
Proof.
  assert (H : res_json (fst (generate sample_env (stub two_choices) (JObj joseph)))
              = Success (JStr "first")) by (vm_compute; reflexivity).
  split; [exact H |].
  exact (proj1 (generate_output_not_nullish sample_env (stub two_choices)
                  (JObj joseph) (JStr "first") H)).
Defined.

Lemma generate_transport_rejection_witness :
  fst (generate sample_env unreachable (JObj joseph))
  = respond 500 (Failure (Text "connect ECONNREFUSED")).
Proof.
  eapply generate_transport_rejection;
    [vm_compute; reflexivity | reflexivity].
Defined.

Lemma generate_unreadable_answer_witness :
  (ok not_json = true /\ json not_json = Throw (Text "Unexpected token < in JSON at position 0"))
  /\ fst (generate sample_env (stub not_json) (JObj joseph))
     = respond 500 (Failure (Text "Unexpected token < in JSON at position 0")).
Proof.
  assert (F : ok not_json = true
              /\ json not_json = Throw (Text "Unexpected token < in JSON at position 0"))
    by (split; reflexivity).
  split; [exact F |].
  eapply generate_unreadable_answer with (r := not_json);
    [vm_compute; reflexivity | reflexivity | right; exact F].
Defined.

Lemma generate_call_credentials_witness :
  In (openai_request "sk-test" (prompt_of joseph) (JStr "Joseph"))
     (snd (generate sample_env (stub no_choices) (JObj joseph)))
  /\ method (openai_request "sk-test" (prompt_of joseph) (JStr "Joseph")) = "POST".
Proof.
  assert (H : In (openai_request "sk-test" (prompt_of joseph) (JStr "Joseph"))
                 (snd (generate sample_env (stub no_choices) (JObj joseph))))
    by (left; vm_compute; reflexivity).
  split; [exact H |].
  exact (proj1 (generate_call_credentials sample_env (stub no_choices) _ _ H)).
Defined.

Lemma generate_call_payload_witness :
  In (openai_request "sk-test" (prompt_of joseph) (JStr "Joseph"))
     (snd (generate sample_env (stub no_choices) (JObj joseph)))
  /\ Get (body (openai_request "sk-test" (prompt_of joseph) (JStr "Joseph"))) "messages"
     = Normal (messages (systemFor (JStr "biblicalApplications") (JStr "default"))
                 (JStr "Joseph")).
Proof.
  assert (H : In (openai_request "sk-test" (prompt_of joseph) (JStr "Joseph"))
                 (snd (generate sample_env (stub no_choices) (JObj joseph))))
    by (left; vm_compute; reflexivity).
  split; [exact H |].
  destruct (generate_call_payload sample_env (stub no_choices) _ _ H)
    as [[_ B] | [[S _] | [S _]]].
  - rewrite B. reflexivity.
  - vm_compute in S. discriminate S.
  - vm_compute in S. discriminate S.
Defined.

Lemma generate_reads_four_properties_witness :
  generate sample_env (stub no_choices) (JObj joseph)
  = generate sample_env (stub no_choices)
      (JObj [ ("requestId", JNum "7"); ("provider", JStr "chatgpt");
              ("mode", JStr "default"); ("input", JStr "Joseph");
              ("task", JStr "biblicalApplications") ]).
Proof.
  apply generate_reads_four_properties; reflexivity.
Defined.

Lemma generate_ignores_mode_witness :
  lookup joseph "task" <> JStr "sermonCrafter"
  /\ generate sample_env (stub no_choices) (JObj joseph)
     = generate sample_env (stub no_choices) (JObj (("mode", JStr "outline") :: joseph)).
Proof.
  assert (N : lookup joseph "task" <> JStr "sermonCrafter") by discriminate.
  split; [exact N |].
  apply (generate_ignores_mode sample_env (stub no_choices) joseph
           (("mode", JStr "outline") :: joseph) N);
    reflexivity.
Defined.

Lemma login_agrees_with_generate_witness :
  In "chatgpt" (available sample_env)
  <-> List.length (snd (generate sample_env (stub no_choices) (JObj joseph))) = 1.
Proof.
  apply (login_agrees_with_generate sample_env (stub no_choices) joseph
           "chatgpt" "Joseph");
    [reflexivity | reflexivity | discriminate | reflexivity].
Defined.

Lemma generate_first_choice_witness :
  fst (generate sample_env (stub two_choices) (JObj joseph))
  = respond 200 (Success (JStr "first")).
Proof.
  eapply generate_first_choice with (r := two_choices);
    [ vm_compute; reflexivity | reflexivity | reflexivity | reflexivity
    | intros E; vm_compute in E; discriminate E
    | reflexivity | reflexivity | reflexivity | reflexivity ].
Defined.

Lemma generate_joins_parts_witness :
  fst (generate sample_env (stub two_parts) (JObj joseph_gemini))
  = respond 200 (Success (JStr "Grace abounds")).
Proof.
  eapply generate_joins_parts with (r := two_parts) (texts := ["Grace "; "abounds"]);
    [ vm_compute; reflexivity | reflexivity | reflexivity | reflexivity
    | reflexivity | reflexivity | reflexivity | reflexivity
    | repeat constructor; eexists; split; reflexivity ].
Defined.

Lemma generate_gemini_unprintable_witness :
  ToString (lookup unprintable_gemini "input")
  = Throw (EngineText CannotConvertToPrimitive)
  /\ generate sample_env (stub no_choices) (JObj unprintable_gemini)
     = (respond 500 (Failure (EngineText CannotConvertToPrimitive)), []).
Proof.
  assert (U : ToString (lookup unprintable_gemini "input")
              = Throw (EngineText CannotConvertToPrimitive)) by reflexivity.
  split; [exact U |].
  apply (generate_gemini_unprintable sample_env (stub no_choices)
           unprintable_gemini _ eq_refl eq_refl eq_refl eq_refl U).
Defined.

Lemma generate_null_answer_witness :
  fst (generate sample_env (stub null_json) (JObj joseph))
  = respond 500 (Failure (EngineText (CannotReadProperty "choices"))).
Proof.
  eapply generate_null_answer with (r := null_json);
    [vm_compute; reflexivity | reflexivity | reflexivity | reflexivity].
Defined.

Lemma generate_parts_not_array_witness :
  fst (generate sample_env (stub parts_object) (JObj joseph_gemini))
  = respond 500 (Failure (EngineText (NotAFunction "parts.map"))).
Proof.
  eapply generate_parts_not_array with (r := parts_object);
    [ vm_compute; reflexivity | reflexivity | reflexivity | reflexivity
    | reflexivity | reflexivity | reflexivity | reflexivity | reflexivity
    | intros elems E; discriminate E ].
Defined.
